(** * deepmd.utils.compat: migration of deepmd-kit input documents

    A shallow embedding of [deepmd/utils/compat.py]: the stage transformers
    of the v0 -> v1 conversion, the v1 -> v2 conversion, the [numb_test]
    pruner and the dispatcher [update_deepmd_input], followed by the
    properties of the migration chain.

    Documents are Python dicts decoded from JSON or YAML.  A dict is a
    [gmap string value]; key order is not modelled.  The top-level document
    is an object of a store, addressed by reference, because the v1 -> v2
    converter and the pruner update the caller's dict in place and return
    the same reference, while the v0 -> v1 converter builds a new dict.
    Nested containers are kept by value inside their parent: decoded
    documents are trees, and no function below updates a container that is
    reachable along two paths.

    Warnings and file dumps are recorded, in order, in a log.  Whether
    the dump file can be written is for the file system to say: a call
    that cannot write it raises [OSError] there, and logs no dump.  The arithmetic of
    [remove_decay_rate] is kept in terms of the operations of Python and
    numpy on floats; where numpy leaves the float64 numbers (a list or a
    bool operand) or signals a floating-point error, the call leaves the
    model. *)

From Stdlib Require Import ZArith String.
From stdpp Require Import gmap strings list fin_maps.

#[local] Open Scope string_scope.
#[local] Set Warnings "-register-all".

(** ** Floating-point numbers

    [remove_decay_rate] is the only arithmetic of the module.  It mixes
    Python's true division with [numpy.log], [numpy.exp] and the product of
    [numpy.float64], which live outside the repository and round as the
    platform does.  The model is therefore parametric in the floats and
    their operations.  An operation that Python or numpy can refuse has an
    optional result. *)

Class Float64 (F : Type) : Type := {
  of_int : Z -> option F;           (* float(z); None: OverflowError, z is too large *)
  int_truediv : Z -> Z -> option F; (* z1 / z2 on ints, z2 <> 0; None: OverflowError *)
  fdiv : F -> F -> F;               (* x / y on floats, y <> 0.0 *)
  fzero : F -> bool;                (* x == 0.0 *)
  np_log : F -> option F;           (* numpy.log(x); None: a floating-point error is signalled *)
  np_exp : F -> option F;           (* numpy.exp(x); None: as for numpy.log *)
  np_mul : F -> F -> option F       (* numpy.float64.__mul__; None: as for numpy.log *)
}.

(** ** Files

    [with open(fname, "w") as fp: json.dump(obj, fp, indent=4)] writes the
    document to the file or raises [OSError] (no such directory, no
    permission, no space left); which of the two is for the file system to
    say.  The documents of this model are all serialisable. *)

Class FileSystem : Type := {
  writable : string -> bool
}.

(** ** Outcomes of a call *)

Inductive exn : Type :=
  | KeyError (k : string)
  | TypeError
  | AttributeError
  | ZeroDivisionError
  | OverflowError
  | OSError
  | RuntimeError (msg : string)
  | AliasError (candidates : list string)   (* raised by j_deprecated *)
  | Dangling.               (* a reference outside the store; no Python counterpart *)

(** A call returns, raises, or leaves the model: numpy broadcasts a list
    operand into an array, which the documents of this model do not hold,
    computes on a bool in another float type, and warns or raises on a
    floating-point error as [numpy.seterr] was set. *)
Inductive result (A : Type) : Type :=
  | Ok (a : A)
  | Raise (e : exn)
  | Unmodelled.

Arguments Ok {A} a.
Arguments Raise {A} e.
Arguments Unmodelled {A}.

Definition rbind {A B : Type} (r : result A) (k : A -> result B) : result B :=
  match r with
  | Ok a => k a
  | Raise e => Raise e
  | Unmodelled => Unmodelled
  end.

Notation "'let?' x := r 'in' k" := (rbind r (fun x => k))
  (at level 10, x name, r at level 100, k at level 200).

Section Model.

Context {F : Type} {FL : Float64 F} {FS : FileSystem}.

(** ** Values *)

Inductive value : Type :=
  | VNone
  | VBool (b : bool)
  | VInt (z : Z)
  | VFloat (x : F)
  | VStr (s : string)
  | VList (l : list value)
  | VDict (d : gmap string value).

(** ** Python primitives on values *)

(** [bool(v)] *)
Definition truthy (v : value) : bool :=
  match v with
  | VNone => false
  | VBool b => b
  | VInt z => negb (z =? 0)%Z
  | VFloat x => negb (fzero x)
  | VStr s => negb (String.eqb s "")
  | VList l => match l with [] => false | _ :: _ => true end
  | VDict d => negb (Nat.eqb (size d) 0)
  end.

(** [d[k]] on a dict *)
Definition dict_get (d : gmap string value) (k : string) : result value :=
  match d !! k with
  | Some v => Ok v
  | None => Raise (KeyError k)
  end.

(** [v[k]] with a string subscript *)
Definition getitem (v : value) (k : string) : result value :=
  match v with
  | VDict d => dict_get d k
  | _ => Raise TypeError
  end.

Fixpoint is_substring (p s : string) : bool :=
  String.prefix p s ||
  match s with
  | EmptyString => false
  | String _ s' => is_substring p s'
  end.

Definition is_str (k : string) (v : value) : bool :=
  match v with
  | VStr s => String.eqb s k
  | _ => false
  end.

(** [k in v] for a string [k] *)
Definition contains (k : string) (v : value) : result bool :=
  match v with
  | VDict d => Ok (bool_decide (is_Some (d !! k)))
  | VList l => Ok (existsb (is_str k) l)
  | VStr s => Ok (is_substring k s)
  | _ => Raise TypeError
  end.

(** A Python number: an int (a bool is one) or a float. *)
Inductive number : Type :=
  | NInt (z : Z)
  | NFloat (x : F).

Definition as_number (v : value) : option number :=
  match v with
  | VBool b => Some (NInt (if b then 1 else 0))
  | VInt z => Some (NInt z)
  | VFloat x => Some (NFloat x)
  | _ => None
  end.

(** [float(z)] where Python converts an int operand *)
Definition to_float (z : Z) : result F :=
  match of_int z with
  | Some x => Ok x
  | None => Raise OverflowError
  end.

(** [a / b].  On two ints the divisor is tested first and the quotient is
    rounded once; with a float on one side the int on the other side is
    converted first, and then the divisor is tested. *)
Definition truediv (a b : value) : result F :=
  match as_number a, as_number b with
  | Some (NInt x), Some (NInt y) =>
      if (y =? 0)%Z then Raise ZeroDivisionError
      else match int_truediv x y with
           | Some q => Ok q
           | None => Raise OverflowError
           end
  | Some (NFloat x), Some (NInt y) =>
      if (y =? 0)%Z then Raise ZeroDivisionError
      else let? y := to_float y in Ok (fdiv x y)
  | Some (NInt x), Some (NFloat y) =>
      let? x := to_float x in
      if fzero y then Raise ZeroDivisionError else Ok (fdiv x y)
  | Some (NFloat x), Some (NFloat y) =>
      if fzero y then Raise ZeroDivisionError else Ok (fdiv x y)
  | _, _ => Raise TypeError
  end.

(** The Python ints that numpy reads as an [int64] or a [uint64]; a larger
    one becomes an array of objects. *)
Definition np_integer (z : Z) : bool :=
  (- 2 ^ 63 <=? z)%Z && (z <? 2 ^ 64)%Z.

(** What numpy computes, when it computes it without signalling a
    floating-point error.  (The conversion of a 64-bit integer goes the
    same way; float64 has a result for each of them.) *)
Definition np_result {A : Type} (o : option A) : result A :=
  match o with
  | Some a => Ok a
  | None => Unmodelled
  end.

(** The argument of [numpy.log] as a float64.  The ufunc has no loop for
    an array of objects, a string or [None]; a bool is computed in
    float16 and a list as an array. *)
Definition np_operand (v : value) : result F :=
  match v with
  | VFloat x => Ok x
  | VInt z => if np_integer z then np_result (of_int z) else Raise TypeError
  | VBool _ | VList _ => Unmodelled
  | _ => Raise TypeError
  end.

(** The right operand of [numpy.float64.__mul__] as a float64.  What numpy
    does with an int outside 64 bits or with a bool depends on its
    version. *)
Definition np_factor (v : value) : result F :=
  match v with
  | VFloat x => Ok x
  | VInt z => if np_integer z then np_result (of_int z) else Unmodelled
  | VBool _ | VList _ => Unmodelled
  | _ => Raise TypeError
  end.

(** ** Field copier *)

Definition _jcopy (src dst : gmap string value) (keys : list string) : gmap string value :=
  foldl (fun dst k => match src !! k with
                      | Some v => <[k := v]> dst
                      | None => dst
                      end) dst keys.

(** Modelled from the spec: [deepmd.common.j_deprecated] is not part of the
    sources at hand.  Section 4.2 describes it as a lookup of the current
    key, then of the deprecated aliases in order, failing with an error
    that names all the candidates when none is present. *)
Definition j_deprecated (jdata : gmap string value) (key : string)
    (deprecated_key : list string) : result value :=
  match jdata !! key with
  | Some v => Ok v
  | None =>
      match omap (fun k => jdata !! k) deprecated_key with
      | v :: _ => Ok v
      | [] => Raise (AliasError (key :: deprecated_key))
      end
  end.

(** [k in d] on a dict *)
Definition has_key (k : string) (d : gmap string value) : bool :=
  bool_decide (is_Some (d !! k)).

(** [v is None] *)
Definition is_None (v : value) : bool :=
  match v with
  | VNone => true
  | _ => false
  end.

(** [seed = jdata.get("seed", None); if seed is not None: dst["seed"] = seed] *)
Definition copy_seed (jdata dst : gmap string value) : gmap string value :=
  let seed := default VNone (jdata !! "seed") in
  if is_None seed then dst else <["seed" := seed]> dst.

(** ** Stage transformers (v0 -> v1) *)

Definition _nonsmth_descriptor (jdata : gmap string value) : gmap string value :=
  let descriptor := <["type" := VStr "loc_frame"]> ∅ in
  _jcopy jdata descriptor ["sel_a"; "sel_r"; "rcut"; "axis_rule"].

Definition _smth_descriptor (jdata : gmap string value) : result (gmap string value) :=
  let descriptor := copy_seed jdata ∅ in
  let descriptor := <["type" := VStr "se_a"]> descriptor in
  let? sel := dict_get jdata "sel_a" in
  let descriptor := <["sel" := sel]> descriptor in
  let descriptor := _jcopy jdata descriptor ["rcut"] in
  let? rcut := dict_get descriptor "rcut" in
  let descriptor := <["rcut_smth" := default rcut (jdata !! "rcut_smth")]> descriptor in
  let? neuron := dict_get jdata "filter_neuron" in
  let descriptor := <["neuron" := neuron]> descriptor in
  let? axis_neuron := j_deprecated jdata "axis_neuron" ["n_axis_neuron"] in
  let descriptor := <["axis_neuron" := axis_neuron]> descriptor in
  let descriptor := <["resnet_dt" := VBool false]> descriptor in
  if has_key "resnet_dt" jdata then
    let? dt := dict_get jdata "filter_resnet_dt" in
    Ok (<["resnet_dt" := dt]> descriptor)
  else Ok descriptor.

Definition _fitting_net (jdata : gmap string value) : result (gmap string value) :=
  let fitting_net := copy_seed jdata ∅ in
  let? neuron := j_deprecated jdata "fitting_neuron" ["n_neuron"] in
  let fitting_net := <["neuron" := neuron]> fitting_net in
  let fitting_net := <["resnet_dt" := VBool true]> fitting_net in
  let? fitting_net :=
    if has_key "resnet_dt" jdata then
      let? dt := dict_get jdata "resnet_dt" in Ok (<["resnet_dt" := dt]> fitting_net)
    else Ok fitting_net in
  if has_key "fitting_resnet_dt" jdata then
    let? dt := dict_get jdata "fitting_resnet_dt" in Ok (<["resnet_dt" := dt]> fitting_net)
  else Ok fitting_net.

Definition _model (jdata : gmap string value) (smooth : value)
    : result (gmap string value) :=
  let? descriptor :=
    if truthy smooth then _smth_descriptor jdata else Ok (_nonsmth_descriptor jdata) in
  let model := <["descriptor" := VDict descriptor]> ∅ in
  let? fitting_net := _fitting_net jdata in
  Ok (<["fitting_net" := VDict fitting_net]> model).

Definition _learning_rate (jdata : gmap string value) : gmap string value :=
  let learning_rate := <["type" := VStr "exp"]> ∅ in
  _jcopy jdata learning_rate ["decay_steps"; "decay_rate"; "start_lr"].

Definition loss_prefactors : list string :=
  ["start_pref_e"; "limit_pref_e"; "start_pref_f"; "limit_pref_f";
   "start_pref_v"; "limit_pref_v"].

Definition _loss (jdata : gmap string value) : result (gmap string value) :=
  let loss := _jcopy jdata ∅ loss_prefactors in
  let? loss :=
    if has_key "start_pref_ae" jdata then
      let? v := dict_get jdata "start_pref_ae" in Ok (<["start_pref_ae" := v]> loss)
    else Ok loss in
  if has_key "limit_pref_ae" jdata then
    let? v := dict_get jdata "limit_pref_ae" in Ok (<["limit_pref_ae" := v]> loss)
  else Ok loss.

Definition _training (jdata : gmap string value) : result (gmap string value) :=
  let training := copy_seed jdata ∅ in
  let training := _jcopy jdata training ["systems"; "set_prefix"; "stop_batch"; "batch_size"] in
  let training := <["disp_file" := VStr "lcurve.out"]> training in
  let? training :=
    if has_key "disp_file" jdata then
      let? v := dict_get jdata "disp_file" in Ok (<["disp_file" := v]> training)
    else Ok training in
  let? v := dict_get jdata "disp_freq" in
  let training := <["disp_freq" := v]> training in
  let? v := dict_get jdata "numb_test" in
  let training := <["numb_test" := v]> training in
  let? v := dict_get jdata "save_freq" in
  let training := <["save_freq" := v]> training in
  let? v := dict_get jdata "save_ckpt" in
  let training := <["save_ckpt" := v]> training in
  let? v := dict_get jdata "disp_training" in
  let training := <["disp_training" := v]> training in
  let? v := dict_get jdata "time_training" in
  let training := <["time_training" := v]> training in
  if has_key "profiling" jdata then
    let? profiling := dict_get jdata "profiling" in
    let training := <["profiling" := profiling]> training in
    if truthy profiling then
      let? v := dict_get jdata "profiling_file" in
      Ok (<["profiling_file" := v]> training)
    else Ok training
  else Ok training.

(** ** Store, effects and the monad of the migrators *)

Definition loc : Type := positive.

Inductive event : Type :=
  | Warning (msg : string)                               (* warnings.warn(msg) *)
  | FileDump (fname : string) (doc : gmap string value). (* json.dump(doc, open(fname, "w")) *)

Record state : Type := State {
  heap : gmap loc (gmap string value);
  log : list event
}.

Definition M (A : Type) : Type := state -> result A * state.

Definition retM {A : Type} (a : A) : M A := fun st => (Ok a, st).

(** An exception leaves the store and the log as they are when it is raised. *)
Definition bindM {A B : Type} (m : M A) (k : A -> M B) : M B :=
  fun st =>
    match m st with
    | (Ok a, st') => k a st'
    | (Raise e, st') => (Raise e, st')
    | (Unmodelled, st') => (Unmodelled, st')
    end.

Notation "'do' x <- m ; k" := (bindM m (fun x => k))
  (at level 10, x name, m at level 100, k at level 200).

Definition lift {A : Type} (r : result A) : M A := fun st => (r, st).

Definition raise {A : Type} (e : exn) : M A := lift (Raise e).

Definition load (l : loc) : M (gmap string value) :=
  fun st => match heap st !! l with
            | Some d => (Ok d, st)
            | None => (Raise Dangling, st)
            end.

Definition store (l : loc) (d : gmap string value) : M unit :=
  fun st => (Ok tt, State (<[l := d]> (heap st)) (log st)).

(** [{}] : a new object *)
Definition alloc (d : gmap string value) : M loc :=
  fun st => let l := fresh (dom (heap st)) in
            (Ok l, State (<[l := d]> (heap st)) (log st)).

Definition emit (e : event) : M unit :=
  fun st => (Ok tt, State (heap st) (log st ++ [e])).

(** [obj[k] = v] *)
Definition setitem (l : loc) (k : string) (v : value) : M unit :=
  do d <- load l;
  store l (<[k := v]> d).

(** [if dump is not None: with open(dump, "w") as fp: json.dump(obj, fp, indent=4)] *)
Definition dump_json (dump : option string) (l : loc) : M unit :=
  match dump with
  | Some fname =>
      if writable fname then do d <- load l; emit (FileDump fname d)
      else raise OSError
  | None => retM tt
  end.

(** ** v0 -> v1 *)

Definition warning_message (version : string) (fname : option string) : string :=
  let msg := "It seems that you are using a deepmd-kit input of version " +:+ version +:+
             ", which is deprecated. we have converted the input to >2.0.0 compatible" in
  match fname with
  | Some f => msg +:+ ", and output it to file " +:+ f
  | None => msg
  end.

Definition _warning_input_v0_v1 (fname : option string) : M unit :=
  emit (Warning (warning_message "0.x.x" fname)).

Definition convert_input_v0_v1 (jdata : loc) (warning : bool) (dump : option string)
    : M loc :=
  do output <- alloc ∅;
  do d <- load jdata;
  do use_smooth <- lift (dict_get d "use_smooth");
  do model <- lift (_model d use_smooth);
  do _ <- setitem output "model" (VDict model);
  do _ <- setitem output "learning_rate" (VDict (_learning_rate d));
  do loss <- lift (_loss d);
  do _ <- setitem output "loss" (VDict loss);
  do training <- lift (_training d);
  do _ <- setitem output "training" (VDict training);
  do _ <- (if warning then _warning_input_v0_v1 dump else retM tt);
  do _ <- dump_json dump output;
  retM output.

(** ** v1 -> v2 *)

(** [np.exp(np.log(decay_rate) * (stop_step / decay_steps)) * start_lr],
    operand by operand, from left to right *)
Definition stop_lr_of (decay_rate start_lr stop_step decay_steps : value) : result F :=
  let? rate := np_operand decay_rate in
  let? log_rate := np_result (np_log rate) in
  let? ratio := truediv stop_step decay_steps in
  let? exponent := np_result (np_mul log_rate ratio) in
  let? factor := np_result (np_exp exponent) in
  let? start := np_factor start_lr in
  np_result (np_mul factor start).

Definition remove_decay_rate (jdata : loc) : M unit :=
  do d <- load jdata;
  do lr <- lift (dict_get d "learning_rate");
  do present <- lift (contains "decay_rate" lr);
  if present then
    do decay_rate <- lift (getitem lr "decay_rate");
    do start_lr <- lift (getitem lr "start_lr");
    do training <- lift (dict_get d "training");
    do stop_step <- lift (getitem training "stop_batch");
    do decay_steps <- lift (getitem lr "decay_steps");
    do stop_lr <- lift (stop_lr_of decay_rate start_lr stop_step decay_steps);
    match lr with
    | VDict lr =>
        let lr := <["stop_lr" := VFloat stop_lr]> lr in
        let lr := delete "decay_rate" lr in
        store jdata (<["learning_rate" := VDict lr]> d)
    | _ => raise TypeError
    end
  else retM tt.

Definition tr_data_keys : list string :=
  ["systems"; "set_prefix"; "batch_size"; "sys_prob"; "auto_prob";
   "sys_weights"; "auto_prob_style"].

(** [v.items()] *)
Definition items (v : value) : result (gmap string value) :=
  match v with
  | VDict d => Ok d
  | _ => Raise AttributeError
  end.

Definition v1_v2_conflict : string :=
  "Both v1 (training/systems) and v2 (training/training_data) parameters are given.".

Definition _warning_input_v1_v2 (fname : option string) : M unit :=
  emit (Warning (warning_message "1.x.x" fname)).

Definition convert_input_v1_v2 (jdata : loc) (warning : bool) (dump : option string)
    : M loc :=
  do d <- load jdata;
  do tr_cfg <- lift (dict_get d "training");
  do tr_cfg <- lift (items tr_cfg);
  let tr_data_cfg := filter (fun kv => kv.1 ∈ tr_data_keys) tr_cfg in
  let new_tr_cfg := filter (fun kv => kv.1 ∉ tr_data_keys) tr_cfg in
  let new_tr_cfg := <["training_data" := VDict tr_data_cfg]> new_tr_cfg in
  if has_key "training_data" tr_cfg then raise (RuntimeError v1_v2_conflict)
  else
    do _ <- setitem jdata "training" (VDict new_tr_cfg);
    do _ <- remove_decay_rate jdata;
    do _ <- (if warning then _warning_input_v1_v2 dump else retM tt);
    do _ <- dump_json dump jdata;
    retM jdata.

(** ** Deprecation pruner *)

Definition numb_test_message : string :=
  "The argument training->numb_test has been deprecated since v2.0.0. " +:+
  "Use training->validation_data->batch_size instead.".

(** [jdata.get("training", {}).pop("numb_test")] under [try ... except KeyError]:
    [true] when the key was popped, [false] when [KeyError] was caught. *)
Definition pop_numb_test (jdata : loc) : M bool :=
  do d <- load jdata;
  match default (VDict ∅) (d !! "training") with
  | VDict training =>
      if has_key "numb_test" training then
        do _ <- store jdata (<["training" := VDict (delete "numb_test" training)]> d);
        retM true
      else retM false
  | VList _ => raise TypeError
  | _ => raise AttributeError
  end.

Definition deprecate_numb_test (jdata : loc) (warning : bool) (dump : option string)
    : M loc :=
  do popped <- pop_numb_test jdata;
  do _ <- (if popped then
             if warning then emit (Warning numb_test_message) else retM tt
           else retM tt);
  do _ <- dump_json dump jdata;
  retM jdata.

(** ** Dispatcher *)

Definition is_deepmd_v0_input (d : gmap string value) : bool :=
  negb (has_key "model" d).

(** [v.keys()] *)
Definition keys (v : value) : result (gmap string value) := items v.

Definition is_deepmd_v1_input (d : gmap string value) : result bool :=
  let? training := dict_get d "training" in
  let? ks := keys training in
  Ok (has_key "systems" ks).

Definition update_deepmd_input (jdata : loc) (warning : bool) (dump : option string)
    : M loc :=
  do d <- load jdata;
  if is_deepmd_v0_input d then
    do jdata <- convert_input_v0_v1 jdata warning None;
    do jdata <- convert_input_v1_v2 jdata false None;
    deprecate_numb_test jdata false dump
  else
    do v1 <- lift (is_deepmd_v1_input d);
    if v1 then
      do jdata <- convert_input_v1_v2 jdata warning None;
      deprecate_numb_test jdata false dump
    else deprecate_numb_test jdata warning dump.

(** The caller holds one document, at [caller], and nothing has happened yet. *)
Definition caller : loc := 1%positive.

Definition init (doc : gmap string value) : state :=
  State {[ caller := doc ]} [].

End Model.

(** ** The floats and the files of the examples

    The example documents are run on terms: a float is the literal that
    writes it or the operation that computes it, so that an example shows
    which operations the code applies, and in which order, whatever their
    rounding.  What Python decides on integers and on literals is computed:
    the overflow of a conversion and of an integer quotient, zero, the sign
    under [numpy.log].  A term headed by a float operation is taken to be
    non-zero and to signal no floating-point error. *)

Inductive fterm : Type :=
  | Dec (m e : Z)              (* the literal m * 10^e, as the nearest float *)
  | OfInt (z : Z)              (* float(z) *)
  | IntDiv (a b : Z)           (* a / b on ints *)
  | Div (x y : fterm)          (* x / y *)
  | Mul (x y : fterm)          (* x * y *)
  | Exp (x : fterm)            (* numpy.exp(x) *)
  | Log (x : fterm).           (* numpy.log(x) *)

(** The least integer that is too large for a float: it rounds to 2^1024. *)
Definition float_overflow : Z := (2 ^ 1024 - 2 ^ 970)%Z.

(** The quotient [a / b] rounds to zero: it is at most half the least
    positive float, 2^-1074. *)
Definition rounds_to_zero (a b : Z) : bool :=
  (Z.abs a * 2 ^ 1075 <=? Z.abs b)%Z.

Definition fterm_zero (x : fterm) : bool :=
  match x with
  | Dec m e => if (0 <=? e)%Z then (m =? 0)%Z else rounds_to_zero m (10 ^ (- e))
  | OfInt z => (z =? 0)%Z
  | IntDiv a b => rounds_to_zero a b
  | _ => false
  end.

Definition fterm_positive (x : fterm) : bool :=
  match x with
  | Dec m e => (0 <? m)%Z && negb (fterm_zero x)
  | OfInt z => (0 <? z)%Z
  | IntDiv a b => (0 <? a * b)%Z && negb (fterm_zero x)
  | _ => true
  end.

Definition symbolic : Float64 fterm := {|
  of_int z := if (Z.abs z <? float_overflow)%Z then Some (OfInt z) else None;
  int_truediv a b :=
    if (Z.abs a <? float_overflow * Z.abs b)%Z then Some (IntDiv a b) else None;
  fdiv := Div;
  fzero := fterm_zero;
  np_log x := if fterm_positive x then Some (Log x) else None;
  np_exp x := Some (Exp x);
  np_mul x y := Some (Mul x y)
|}.

(** Every file can be written, but the one of the empty path, which [open]
    refuses on every system. *)
Definition example_files : FileSystem := {|
  writable fname := negb (String.eqb fname "")
|}.

#[export] Existing Instances symbolic example_files.

(** The messages of the warnings in a log, in order. *)
Definition warnings_of {F : Type} (evs : list (event (F:=F))) : list string :=
  omap (fun e => match e with
                 | Warning msg => Some msg
                 | FileDump _ _ => None
                 end) evs.

(** The training section as [convert_input_v1_v2] rebuilds it. *)
Definition restructured {F : Type} (tr_cfg : gmap string (value (F:=F)))
    : gmap string (value (F:=F)) :=
  <["training_data" := VDict (filter (fun kv => kv.1 ∈ tr_data_keys) tr_cfg)]>
    (filter (fun kv => kv.1 ∉ tr_data_keys) tr_cfg).

(** The document without the [numb_test] entry of its [training] section. *)
Definition pruned {F : Type} (doc : gmap string (value (F:=F)))
    : gmap string (value (F:=F)) :=
  match doc !! "training" with
  | Some (VDict training) => <["training" := VDict (delete "numb_test" training)]> doc
  | _ => doc
  end.

(** [training] has a [numb_test] entry to prune. *)
Definition has_numb_test {F : Type} (doc : gmap string (value (F:=F))) : bool :=
  match doc !! "training" with
  | Some (VDict training) => has_key "numb_test" training
  | _ => false
  end.

(** No [training] entry, or one that is a dict. *)
Definition training_is_section {F : Type} (doc : gmap string (value (F:=F))) : Prop :=
  doc !! "training" = None \/ exists training, doc !! "training" = Some (VDict training).

(** The keys [_loss] may copy. *)
Definition loss_keys : list string :=
  loss_prefactors ++ ["start_pref_ae"; "limit_pref_ae"].

(** [seed] as the transformers carry it: dropped when the source holds
    [None] for it. *)
Definition carried_seed {F : Type} (jdata : gmap string (value (F:=F)))
    : option (value (F:=F)) :=
  match jdata !! "seed" with
  | Some VNone => None
  | o => o
  end.

(** ** Notions used in the statements *)

(** [st'] differs from [st] at most in the object at [l]. *)
Definition frame {F : Type} (l : loc) (st st' : state (F:=F)) : Prop :=
  forall l', l' <> l -> heap st' !! l' = heap st !! l'.

Definition is_ok {A : Type} (r : result A) : bool :=
  match r with
  | Ok _ => true
  | _ => false
  end.

(** [Q] holds of the outcome and final state of [m] run from [st]. *)
Definition post {F A : Type} (m : M (F:=F) A) (st : state (F:=F))
    (Q : result A -> state (F:=F) -> Prop) : Prop :=
  Q (m st).1 (m st).2.

(** The keys [_training] reads without a default, in the order it reads them. *)
Definition training_required : list string :=
  ["disp_freq"; "numb_test"; "save_freq"; "save_ckpt"; "disp_training"; "time_training"].

(** The file dumps of a log, in order: path and document written. *)
Definition dumps_of {F : Type} (evs : list (event (F:=F)))
    : list (string * gmap string (value (F:=F))) :=
  omap (fun e => match e with
                 | FileDump fname doc => Some (fname, doc)
                 | Warning _ => None
                 end) evs.

(** What a call that reaches its dump returns: its result when no dump is
    requested or the file can be written, [OSError] otherwise. *)
Definition can_write {FS : FileSystem} (dump : option string) : bool :=
  match dump with
  | Some fname => writable fname
  | None => true
  end.

Definition written {FS : FileSystem} {A : Type} (dump : option string) (a : A)
    : result A :=
  if can_write dump then Ok a else Raise OSError.

(** What the dump of [doc] adds to the log: nothing when the file cannot be
    written. *)
Definition dump_events {F : Type} {FS : FileSystem} (dump : option string)
    (doc : gmap string (value (F:=F))) : list (event (F:=F)) :=
  match dump with
  | Some fname => if writable fname then [FileDump fname doc] else []
  | None => []
  end.

(** What [warning] and [dump] add to the log at the end of a converter. *)
Definition closing_events {F : Type} {FS : FileSystem} (version : string)
    (warning : bool) (dump : option string) (doc : gmap string (value (F:=F)))
    : list (event (F:=F)) :=
  ((if warning then [Warning (warning_message version dump)] else []) ++
   dump_events dump doc)%list.

(** The end of a converter: the warning, then the dump of the object at
    [l], then [l] itself. *)
Definition closing {F : Type} {FS : FileSystem} (warn : option string -> M (F:=F) unit)
    (warning : bool) (dump : option string) (l : loc) : M (F:=F) loc :=
  bindM (if warning then warn dump else retM tt)
    (fun _ => bindM (dump_json dump l) (fun _ => retM l)).

(** A document that the dispatcher takes for v2: a [model] entry, and a
    [training] section without [systems] and without [numb_test]. *)
Definition migrated {F : Type} (doc : gmap string (value (F:=F))) : Prop :=
  is_Some (doc !! "model") /\
  exists training, doc !! "training" = Some (VDict training) /\
    training !! "systems" = None /\ training !! "numb_test" = None.

(** ** Example documents *)

Section Examples.

Abbreviation dict := (gmap string (value (F:=fterm))).

(** A v0 input with the smooth descriptor. *)
Definition example_v0 : dict :=
  list_to_map [
    ("use_smooth", VBool true); ("seed", VInt 1);
    ("sel_a", VList [VInt 16; VInt 32]); ("rcut", VInt 6);
    ("filter_neuron", VList [VInt 25; VInt 50]); ("axis_neuron", VInt 16);
    ("resnet_dt", VBool false); ("filter_resnet_dt", VBool true);
    ("fitting_neuron", VList [VInt 240; VInt 240]);
    ("fitting_resnet_dt", VBool true);
    ("systems", VList [VStr "data"]); ("set_prefix", VStr "set");
    ("stop_batch", VInt 10000); ("batch_size", VInt 4);
    ("start_lr", VFloat (Dec 1 (-2))); ("decay_steps", VInt 1000);
    ("decay_rate", VFloat (Dec 5 (-1)));
    ("start_pref_e", VInt 0); ("limit_pref_e", VInt 1);
    ("start_pref_f", VInt 1000); ("limit_pref_f", VInt 1);
    ("start_pref_v", VInt 0); ("limit_pref_v", VInt 0);
    ("disp_freq", VInt 100); ("numb_test", VInt 10); ("save_freq", VInt 1000);
    ("save_ckpt", VStr "model.ckpt"); ("disp_training", VBool true);
    ("time_training", VBool true); ("profiling", VBool false)
  ].

(** A v0 source with one loss prefactor only. *)
Definition one_prefactor : dict := {[ "start_pref_e" := VInt 0 ]}.

(** A v0 source whose [seed] is [None]. *)
Definition null_seed : dict :=
  list_to_map [("seed", VNone); ("fitting_neuron", VList [VInt 240])].

(** The decay example of the spec, as a v1 document. *)
Definition decay_training : dict :=
  list_to_map [("systems", VList [VStr "data"]); ("stop_batch", VInt 10000)].

Definition decay_learning_rate : dict :=
  list_to_map [("type", VStr "exp"); ("decay_rate", VFloat (Dec 5 (-1)));
               ("decay_steps", VInt 1000); ("start_lr", VFloat (Dec 1 (-2)))].

Definition example_v1 : dict :=
  list_to_map [("model", VDict ∅); ("training", VDict decay_training);
               ("learning_rate", VDict decay_learning_rate)].

(** The same without [start_lr]. *)
Definition no_start_lr : dict :=
  list_to_map [("type", VStr "exp"); ("decay_rate", VFloat (Dec 5 (-1)));
               ("decay_steps", VInt 1000)].

Definition v1_without_start_lr : dict :=
  list_to_map [("model", VDict ∅); ("training", VDict decay_training);
               ("learning_rate", VDict no_start_lr)].

(** Both the v1 and the v2 layout of the training data. *)
Definition both_layouts : dict :=
  list_to_map [("systems", VList [VStr "data"]); ("training_data", VDict ∅)].

Definition conflicting : dict :=
  list_to_map [("model", VDict ∅); ("training", VDict both_layouts)].

(** A v2 document that still has [numb_test]. *)
Definition example_v2 : dict :=
  list_to_map [("model", VDict ∅);
               ("training", VDict (list_to_map [("numb_test", VInt 10);
                                                ("training_data", VDict ∅)]))].

(** A document whose [training] is a number. *)
Definition scalar_training : dict := {[ "training" := VInt 5 ]}.

(** A document with a model and no training section. *)
Definition model_only : dict := {[ "model" := VDict ∅ ]}.

(** A v0 source that stops after [disp_freq]. *)
Definition only_disp_freq : dict := {[ "disp_freq" := VInt 100 ]}.

(** A v0 source with the required training keys and profiling on, and no
    [profiling_file]. *)
Definition profiling_on : dict :=
  list_to_map [
    ("disp_freq", VInt 100); ("numb_test", VInt 10); ("save_freq", VInt 1000);
    ("save_ckpt", VStr "model.ckpt"); ("disp_training", VBool true);
    ("time_training", VBool true); ("profiling", VBool true)
  ].

(** A v1 document without [learning_rate]. *)
Definition no_learning_rate : dict :=
  list_to_map [("model", VDict ∅); ("training", VDict decay_training)].

(** The decay example with [decay_steps] at zero. *)
Definition zero_steps : dict :=
  list_to_map [("type", VStr "exp"); ("decay_rate", VFloat (Dec 5 (-1)));
               ("decay_steps", VInt 0); ("start_lr", VFloat (Dec 1 (-2)))].

Definition v1_with_zero_steps : dict :=
  list_to_map [("model", VDict ∅); ("training", VDict decay_training);
               ("learning_rate", VDict zero_steps)].



(** A document with a model, whose [training] is a number. *)
Definition model_and_scalar_training : dict :=
  list_to_map [("model", VDict ∅); ("training", VInt 5)].

End Examples.

(** ** Basic facts on the primitives *)

Section Primitives.

Context {F : Type} {FL : Float64 F}.

Implicit Types (jdata src dst d : gmap string (value (F:=F))) (k : string).

Lemma has_key_lookup k d :
  has_key k d = match d !! k with Some _ => true | None => false end.
Proof.
  unfold has_key. destruct (d !! k) eqn:E.
  - apply bool_decide_eq_true. eauto.
  - apply bool_decide_eq_false. intros [v Hv]. discriminate.
Qed.

Lemma dict_get_Some k d v : d !! k = Some v -> dict_get d k = Ok v.
Proof. unfold dict_get. now intros ->. Qed.

Lemma dict_get_None k d : d !! k = None -> dict_get d k = Raise (KeyError k).
Proof. unfold dict_get. now intros ->. Qed.

Lemma lookup_jcopy src dst ks k :
  _jcopy src dst ks !! k =
  if decide (k ∈ ks) then
    match src !! k with Some v => Some v | None => dst !! k end
  else dst !! k.
Proof.
  unfold _jcopy. revert dst. induction ks as [|a ks IH]; intros dst; simpl.
  - destruct (decide (k ∈ [])) as [H|_]; [|reflexivity].
    exfalso. revert H. apply not_elem_of_nil.
  - rewrite IH. clear IH.
    destruct (decide (k ∈ ks)) as [Hin|Hnin].
    + rewrite decide_True by (apply elem_of_cons; auto).
      destruct (src !! k) eqn:Ek; [reflexivity|].
      destruct (src !! a) eqn:Ea; [|reflexivity].
      rewrite lookup_insert_ne; [reflexivity|]. intros ->. congruence.
    + destruct (decide (a = k)) as [->|Hne].
      * rewrite decide_True by (apply elem_of_cons; auto).
        destruct (src !! k); [apply lookup_insert_eq | reflexivity].
      * rewrite decide_False.
        2:{ intros [?|?]%elem_of_cons; congruence. }
        destruct (src !! a); [now apply lookup_insert_ne | reflexivity].
Qed.

Lemma lookup_copy_seed jdata dst k :
  copy_seed jdata dst !! k =
  if decide (k = "seed") then
    match jdata !! "seed" with
    | Some VNone | None => dst !! k
    | Some v => Some v
    end
  else dst !! k.
Proof.
  unfold copy_seed.
  destruct (decide (k = "seed")) as [->|Hne].
  - destruct (jdata !! "seed") as [[]|]; simpl; try reflexivity;
      apply lookup_insert_eq.
  - destruct (is_None _); [reflexivity|]. now apply lookup_insert_ne.
Qed.

End Primitives.

(** ** The stage transformers *)

Section StageTransformers.

Context {F : Type} {FL : Float64 F}.

Implicit Types (jdata d : gmap string (value (F:=F))) (k : string).

Lemma _loss_total jdata :
  _loss jdata =
  Ok (_jcopy jdata (_jcopy jdata ∅ loss_prefactors) ["start_pref_ae"; "limit_pref_ae"]).
Proof.
  unfold _loss. generalize (_jcopy jdata ∅ loss_prefactors). intros loss.
  rewrite !has_key_lookup. unfold dict_get, _jcopy. simpl.
  destruct (jdata !! "start_pref_ae"), (jdata !! "limit_pref_ae"); reflexivity.
Qed.

(** C4, as the code has it: the loss transformer never fails; each of the
    eight loss keys is in the output exactly when it is in the source, with
    the source's value, and the output has no other key. *)
Theorem loss_copies_present_keys jdata :
  exists loss, _loss jdata = Ok loss /\
    forall k, loss !! k = if decide (k ∈ loss_keys) then jdata !! k else None.
Proof.
  eexists. split; [apply _loss_total|].
  intros k. rewrite !lookup_jcopy, lookup_empty.
  unfold loss_keys.
  destruct (decide (k ∈ ["start_pref_ae"; "limit_pref_ae"])) as [H1|H1];
    destruct (decide (k ∈ loss_prefactors)) as [H2|H2];
    destruct (decide (k ∈ (loss_prefactors ++ ["start_pref_ae"; "limit_pref_ae"])%list))
      as [H3|H3];
    try (exfalso; apply H3; apply elem_of_app; auto; fail);
    try (apply elem_of_app in H3 as [?|?]; contradiction);
    destruct (jdata !! k); reflexivity.
Qed.

Lemma j_deprecated_ok jdata key alias :
  is_Some (jdata !! key) \/ is_Some (jdata !! alias) ->
  exists v, j_deprecated jdata key [alias] = Ok v.
Proof.
  unfold j_deprecated. intros H.
  destruct (jdata !! key) as [v|]; [now exists v|].
  destruct H as [[v Hv]|[v Hv]]; [discriminate|].
  simpl. rewrite Hv. simpl. now exists v.
Qed.

(** C6: when the fitting-net transformer has its [neuron] entry, it returns,
    and [resnet_dt] in its output is the source's [fitting_resnet_dt] when
    that key is present, else the source's [resnet_dt] when that one is
    present, else [True]. *)
Theorem fitting_net_resnet_dt jdata :
  is_Some (jdata !! "fitting_neuron") \/ is_Some (jdata !! "n_neuron") ->
  exists fitting_net, _fitting_net jdata = Ok fitting_net /\
    fitting_net !! "resnet_dt" =
    Some match jdata !! "fitting_resnet_dt" with
         | Some dt => dt
         | None => match jdata !! "resnet_dt" with
                   | Some dt => dt
                   | None => VBool true
                   end
         end.
Proof.
  intros [neuron Hn]%j_deprecated_ok.
  unfold _fitting_net. rewrite Hn. simpl.
  rewrite !has_key_lookup. unfold dict_get.
  destruct (jdata !! "resnet_dt"), (jdata !! "fitting_resnet_dt"); simpl;
    eexists; (split; [reflexivity|]); apply lookup_insert_eq.
Qed.

(** C5: when the smooth-descriptor transformer has its required entries,
    [resnet_dt] in its output is [False] if the source has no [resnet_dt]
    key, and the source's [filter_resnet_dt] if the source has a
    [resnet_dt] key; with [resnet_dt] but no [filter_resnet_dt] the lookup
    of [filter_resnet_dt] fails. *)
Theorem smth_descriptor_resnet_dt jdata sel rcut neuron :
  jdata !! "sel_a" = Some sel ->
  jdata !! "rcut" = Some rcut ->
  jdata !! "filter_neuron" = Some neuron ->
  is_Some (jdata !! "axis_neuron") \/ is_Some (jdata !! "n_axis_neuron") ->
  match jdata !! "resnet_dt", jdata !! "filter_resnet_dt" with
  | None, _ =>
      exists descriptor, _smth_descriptor jdata = Ok descriptor /\
        descriptor !! "resnet_dt" = Some (VBool false)
  | Some _, Some dt =>
      exists descriptor, _smth_descriptor jdata = Ok descriptor /\
        descriptor !! "resnet_dt" = Some dt
  | Some _, None => _smth_descriptor jdata = Raise (KeyError "filter_resnet_dt")
  end.
Proof.
  intros Hsel Hrcut Hneuron [axis Haxis]%j_deprecated_ok.
  unfold _smth_descriptor.
  rewrite (dict_get_Some _ _ _ Hsel). simpl.
  unfold _jcopy. simpl. rewrite Hrcut.
  rewrite (dict_get_Some "rcut" _ rcut) by apply lookup_insert_eq. simpl.
  rewrite (dict_get_Some _ _ _ Hneuron). simpl.
  rewrite Haxis. simpl.
  rewrite has_key_lookup. unfold dict_get.
  destruct (jdata !! "resnet_dt"), (jdata !! "filter_resnet_dt"); simpl;
    try reflexivity; eexists; (split; [reflexivity|]); apply lookup_insert_eq.
Qed.

(** Runs a transformer of the [result] monad through its successive
    lookups, one case split per lookup. *)
Ltac rsteps :=
  repeat match goal with
    | H : context [rbind ?r _] |- _ =>
        destruct r eqn:?; simpl in H; try discriminate H
    | H : context [if ?b then _ else _] |- _ =>
        destruct b eqn:?; simpl in H; try discriminate H
    | H : Ok _ = Ok _ |- _ => injection H as <-
    end.

#[local] Arguments _jcopy : simpl never.

Lemma lookup_copy_seed_empty jdata :
  copy_seed jdata ∅ !! "seed" = carried_seed jdata.
Proof.
  rewrite lookup_copy_seed. unfold carried_seed. simpl.
  destruct (jdata !! "seed") as [[]|]; reflexivity.
Qed.

Ltac seed_lookup :=
  rewrite ?lookup_insert_ne by done; rewrite ?lookup_jcopy; simpl;
  rewrite ?lookup_insert_ne by done; apply lookup_copy_seed_empty.

(** C8, as the code has it: in the outputs of the smooth-descriptor,
    fitting-net and training transformers [seed] is the source's [seed]
    unless that is absent or [None], in which case the output has no
    [seed]; [profiling] (training) and [start_pref_ae], [limit_pref_ae]
    (loss) are in the output exactly when they are in the source, with the
    source's value; [resnet_dt] is always in the descriptor and fitting-net
    outputs. *)
Theorem optional_fields_carried_over jdata :
  (forall d, _smth_descriptor jdata = Ok d ->
     d !! "seed" = carried_seed jdata /\ is_Some (d !! "resnet_dt")) /\
  (forall d, _fitting_net jdata = Ok d ->
     d !! "seed" = carried_seed jdata /\ is_Some (d !! "resnet_dt")) /\
  (forall d, _training jdata = Ok d ->
     d !! "seed" = carried_seed jdata /\ d !! "profiling" = jdata !! "profiling") /\
  (forall d, _loss jdata = Ok d ->
     d !! "start_pref_ae" = jdata !! "start_pref_ae" /\
     d !! "limit_pref_ae" = jdata !! "limit_pref_ae").
Proof.
  repeat split.
  - unfold _smth_descriptor in H. rsteps; seed_lookup.
  - unfold _smth_descriptor in H. rsteps; rewrite lookup_insert_eq; eauto.
  - unfold _fitting_net in H. rsteps; seed_lookup.
  - unfold _fitting_net in H. rsteps; rewrite lookup_insert_eq; eauto.
  - unfold _training in H. rsteps; seed_lookup.
  - unfold _training in H. rewrite (has_key_lookup "profiling") in H.
    unfold dict_get in H at 8.
    destruct (jdata !! "profiling") eqn:Hp; rsteps;
      rewrite ?lookup_insert_ne by done; rewrite ?lookup_insert_eq; try reflexivity;
      rewrite lookup_jcopy; simpl; rewrite lookup_copy_seed; reflexivity.
  - rewrite _loss_total in H. injection H as <-.
    rewrite !lookup_jcopy, lookup_empty. simpl. destruct (jdata !! _); reflexivity.
  - rewrite _loss_total in H. injection H as <-.
    rewrite !lookup_jcopy, lookup_empty. simpl. destruct (jdata !! _); reflexivity.
Qed.

End StageTransformers.

(** ** Reasoning on the migrators *)

Section Calculus.

Context {F : Type} {FL : Float64 F} {FS : FileSystem}.

Implicit Types (d : gmap string (value (F:=F))) (st : state (F:=F)) (l : loc).

Lemma post_run {A} (m : M A) st Q r st' : post m st Q -> m st = (r, st') -> Q r st'.
Proof. unfold post. intros H E. now rewrite E in H. Qed.

Lemma post_mono {A} (m : M A) st (Q Q' : result A -> state -> Prop) :
  post m st Q -> (forall r st', Q r st' -> Q' r st') -> post m st Q'.
Proof. unfold post. auto. Qed.

Lemma post_bind {A B} (m : M A) (k : A -> M B) st Q :
  post m st (fun r st1 =>
    match r with
    | Ok a => post (k a) st1 Q
    | Raise e => Q (Raise e) st1
    | Unmodelled => Q Unmodelled st1
    end) ->
  post (bindM m k) st Q.
Proof. unfold post, bindM. cbn beta. now destruct (m st) as [[] ?]. Qed.

Lemma post_ret {A} (a : A) st Q : Q (Ok a) st -> post (retM a) st Q.
Proof. auto. Qed.

Lemma post_lift {A} (r : result A) st Q : Q r st -> post (lift r) st Q.
Proof. auto. Qed.

Lemma post_load l st Q :
  match heap st !! l with
  | Some d => Q (Ok d) st
  | None => Q (Raise Dangling) st
  end ->
  post (load l) st Q.
Proof. unfold post, load. now destruct (heap st !! l). Qed.

Lemma post_store l d st Q :
  Q (Ok tt) (State (<[l := d]> (heap st)) (log st)) -> post (store l d) st Q.
Proof. auto. Qed.

Lemma post_alloc d st Q :
  Q (Ok (fresh (dom (heap st))))
    (State (<[fresh (dom (heap st)) := d]> (heap st)) (log st)) ->
  post (alloc d) st Q.
Proof. auto. Qed.

Lemma post_emit e st Q :
  Q (Ok tt) (State (heap st) (log st ++ [e])) -> post (emit e) st Q.
Proof. auto. Qed.

Lemma frame_refl l st : frame l st st.
Proof. now intros l' _. Qed.

Lemma frame_trans l st1 st2 st3 : frame l st1 st2 -> frame l st2 st3 -> frame l st1 st3.
Proof. intros H1 H2 l' Hl. now rewrite H2, H1. Qed.

Lemma state_eta st : State (heap st) (log st) = st.
Proof. now destruct st. Qed.

Lemma warnings_of_app (evs1 evs2 : list (event (F:=F))) :
  warnings_of (evs1 ++ evs2) = (warnings_of evs1 ++ warnings_of evs2)%list.
Proof. apply omap_app. Qed.

Lemma warnings_of_dump dump d : warnings_of (dump_events dump d) = [].
Proof.
  unfold dump_events. destruct dump as [fname|]; [|reflexivity].
  now destruct (writable fname).
Qed.

(** Running a bind whose head is known. *)
Lemma bindM_load {A} l (k : gmap string (value (F:=F)) -> M A) st d :
  heap st !! l = Some d -> bindM (load l) k st = k d st.
Proof. intros H. unfold bindM, load. now rewrite H. Qed.

Lemma bindM_lift {A B} (a : A) (k : A -> M (F:=F) B) st :
  bindM (lift (Ok a)) k st = k a st.
Proof. reflexivity. Qed.

Lemma bindM_setitem {A} l key v (k : unit -> M A) st d :
  heap st !! l = Some d ->
  bindM (setitem l key v) k st =
  k tt (State (<[l := <[key := v]> d]> (heap st)) (log st)).
Proof. intros H. unfold setitem, bindM, load, store. now rewrite H. Qed.

Lemma bindM_ok {A B} (m : M A) (k : A -> M (F:=F) B) st a st1 :
  m st = (Ok a, st1) -> bindM m k st = k a st1.
Proof. intros H. unfold bindM. now rewrite H. Qed.

(** The dump of the object at [l], when there is one, at the end of a
    call: the file receives the document, or cannot be written. *)
Lemma dump_json_run dump l st d :
  heap st !! l = Some d ->
  bindM (dump_json dump l) (fun _ => retM l) st =
  (written dump l, State (heap st) (log st ++ dump_events dump d)).
Proof.
  intros Hd. unfold dump_json, written, can_write, dump_events.
  destruct dump as [fname|].
  - destruct (writable fname).
    + unfold bindM, load, emit, retM. now rewrite Hd.
    + unfold bindM, raise, lift. now rewrite app_nil_r, state_eta.
  - unfold bindM, retM. now rewrite app_nil_r, state_eta.
Qed.

End Calculus.

(** One step of a migrator: the rule of the head operation, then the case
    split on an outcome or a lookup that the rule exposes. *)
Ltac mstep :=
  cbn beta;
  lazymatch goal with
  | |- post (bindM _ _) _ _ => apply post_bind
  | |- post (retM _) _ _ => apply post_ret
  | |- post (lift _) _ _ => apply post_lift
  | |- post (raise _) _ _ => apply post_lift
  | |- post (load _) _ _ => apply post_load
  | |- post (store _ _) _ _ => apply post_store
  | |- post (alloc _) _ _ => apply post_alloc
  | |- post (emit _) _ _ => apply post_emit
  | |- post (setitem _ _ _) _ _ => unfold setitem
  | |- post (dump_json _ _) _ _ => unfold dump_json
  | |- post (_warning_input_v0_v1 _) _ _ => unfold _warning_input_v0_v1
  | |- post (_warning_input_v1_v2 _) _ _ => unfold _warning_input_v1_v2
  | |- post (if ?b then _ else _) _ _ => destruct b eqn:?
  | |- post (match ?x with _ => _ end) _ _ => destruct x eqn:?
  | |- match ?r with Ok _ => _ | Raise _ => _ | Unmodelled => _ end =>
      destruct r eqn:?
  | |- match ?o with Some _ => _ | None => _ end => destruct o eqn:?
  end;
  cbn [heap log]; rewrite ?lookup_insert_eq; cbn beta iota.

Ltac solve_frame :=
  let l' := fresh "l'" in
  let Hl := fresh "Hl" in
  intros l' Hl; cbn [heap log]; rewrite ?lookup_insert_ne by done; reflexivity.

Ltac solve_log :=
  cbn [heap log];
  first [ exists []; split; [now rewrite app_nil_r | simpl; auto]
        | eexists; split; [rewrite <- ?app_assoc; reflexivity | simpl; auto] ].

(** ** The migrators and the dispatcher *)

Section Migrators.

Context {F : Type} {FL : Float64 F} {FS : FileSystem}.

Implicit Types (doc d : gmap string (value (F:=F))) (st : state (F:=F)).
Implicit Types (jdata : loc) (warning : bool) (dump : option string).

(** [remove_decay_rate] writes nothing in the log, touches the object at
    [jdata] only, leaves it as it is unless it returns, and returns only
    when there is an object at [jdata]. *)
Lemma remove_decay_rate_effects jdata st :
  post (remove_decay_rate jdata) st (fun r st' =>
    log st' = log st /\ frame jdata st st' /\
    (is_ok r = false -> st' = st) /\
    (is_ok r = true -> is_Some (heap st' !! jdata))).
Proof.
  unfold remove_decay_rate.
  repeat mstep;
    (split; [reflexivity|]); (split; [solve_frame|]);
    (split; intros; [try reflexivity; discriminate|]);
    try discriminate; cbn [heap]; rewrite ?lookup_insert_eq; eauto.
Qed.

(** The pruner: the log grows by at most one warning, and only if
    warnings are requested; only the object at [jdata] may change. *)
Lemma deprecate_numb_test_effects jdata warning dump st :
  post (deprecate_numb_test jdata warning dump) st (fun r st' =>
    frame jdata st st' /\ (forall l, r = Ok l -> l = jdata) /\
    exists evs, log st' = (log st ++ evs)%list /\
      (warnings_of evs = [] \/
       warning = true /\ warnings_of evs = [numb_test_message])).
Proof.
  unfold deprecate_numb_test, pop_numb_test.
  repeat mstep;
    (split; [solve_frame|]); (split; [congruence|]); solve_log.
Qed.

(** The v1 -> v2 converter without a dump, as the dispatcher calls it: one
    warning, at the end, when it returns and warnings are requested; only
    the object at [jdata] may change. *)
Lemma v1_v2_effects jdata warning st :
  post (convert_input_v1_v2 jdata warning None) st (fun r st' =>
    frame jdata st st' /\ (forall l, r = Ok l -> l = jdata) /\
    exists evs, log st' = (log st ++ evs)%list /\
      warnings_of evs =
      if warning && is_ok r then [warning_message "1.x.x" None] else []).
Proof.
  unfold convert_input_v1_v2.
  repeat mstep;
    try (cbn beta; rewrite andb_false_r; (split; [solve_frame|]);
         (split; [congruence|]); solve_log).
  eapply post_mono; [apply remove_decay_rate_effects|].
  cbn [heap log]. intros r2 st2 (Hlog & Hfr & _ & Hal).
  assert (Hfr' : forall evs, frame jdata st (State (heap st2) evs)).
  { intros evs l' Hl. cbn [heap]. rewrite Hfr by done. cbn [heap].
    now apply lookup_insert_ne. }
  destruct r2 as [[]| |];
    try (rewrite andb_false_r; split; [rewrite <- (state_eta st2); apply Hfr'|];
         (split; [congruence|]); rewrite Hlog; solve_log).
  destruct Hal as [d2 Hd2]; [reflexivity|].
  destruct warning; repeat mstep; rewrite ?Hd2;
    (split; [first [apply Hfr' | rewrite <- (state_eta st2); apply Hfr']|]);
    (split; [congruence|]); cbn [heap log]; rewrite Hlog; solve_log.
Qed.

(** The v0 -> v1 converter without a dump, as the dispatcher calls it: one
    warning, at the end, when it returns and warnings are requested; it
    writes to a new object only. *)
Lemma v0_v1_effects jdata warning st :
  post (convert_input_v0_v1 jdata warning None) st (fun r st' =>
    frame (fresh (dom (heap st))) st st' /\
    (forall l, r = Ok l -> l = fresh (dom (heap st))) /\
    exists evs, log st' = (log st ++ evs)%list /\
      warnings_of evs =
      if warning && is_ok r then [warning_message "0.x.x" None] else []).
Proof.
  unfold convert_input_v0_v1.
  repeat mstep;
    cbn beta; cbn [is_ok]; rewrite ?andb_false_r, ?andb_true_r;
    (split; [solve_frame|]); (split; [congruence|]); solve_log.
Qed.

(** With or without a dump, the v0 -> v1 converter writes to a new object
    only. *)
Lemma v0_v1_frame jdata warning dump st :
  post (convert_input_v0_v1 jdata warning dump) st (fun _ st' =>
    frame (fresh (dom (heap st))) st st').
Proof. unfold convert_input_v0_v1. repeat mstep; solve_frame. Qed.

Ltac finish :=
  solve [ cbn [is_ok log heap] in *; repeat split; intros; try discriminate; auto;
          try congruence ].

Lemma stage_messages_distinct :
  NoDup [warning_message "0.x.x" None; warning_message "1.x.x" None; numb_test_message].
Proof.
  repeat constructor; rewrite ?elem_of_cons, ?elem_of_nil; intros H;
    repeat destruct H as [H|H]; try discriminate H; exact H.
Qed.

(** C1: whatever the document, warning flag and dump path, the warnings
    that [update_deepmd_input] emits are none or the single warning of the
    first stage it runs: the 0.x.x notice for a v0-detected input, the 1.x.x
    notice for a v1-detected input, the [numb_test] notice otherwise; none
    when warnings are off or detection fails; exactly one when a v0- or
    v1-detected input is migrated with warnings on. *)
Theorem one_warning_from_first_stage doc warning dump :
  let out := update_deepmd_input caller warning dump (init doc) in
  let ws := warnings_of (log out.2) in
  (warning = false -> ws = []) /\
  if is_deepmd_v0_input doc then
    (ws = [] \/ ws = [warning_message "0.x.x" None]) /\
    (warning = true -> is_ok out.1 = true -> ws = [warning_message "0.x.x" None])
  else
    match is_deepmd_v1_input doc with
    | Ok true =>
        (ws = [] \/ ws = [warning_message "1.x.x" None]) /\
        (warning = true -> is_ok out.1 = true -> ws = [warning_message "1.x.x" None])
    | Ok false => ws = [] \/ ws = [numb_test_message]
    | _ => ws = []
    end.
Proof.
  cbv zeta.
  change (post (update_deepmd_input caller warning dump) (init doc) (fun r st' =>
    (warning = false -> warnings_of (log st') = []) /\
    if is_deepmd_v0_input doc then
      (warnings_of (log st') = [] \/
       warnings_of (log st') = [warning_message "0.x.x" None]) /\
      (warning = true -> is_ok r = true ->
       warnings_of (log st') = [warning_message "0.x.x" None])
    else
      match is_deepmd_v1_input doc with
      | Ok true =>
          (warnings_of (log st') = [] \/
           warnings_of (log st') = [warning_message "1.x.x" None]) /\
          (warning = true -> is_ok r = true ->
           warnings_of (log st') = [warning_message "1.x.x" None])
      | Ok false =>
          warnings_of (log st') = [] \/ warnings_of (log st') = [numb_test_message]
      | _ => warnings_of (log st') = []
      end)).
  unfold update_deepmd_input.
  mstep. mstep. unfold init at 1. cbn [heap]. rewrite lookup_singleton_eq.
  destruct (is_deepmd_v0_input doc) eqn:Hv0.
  - mstep. eapply post_mono; [apply v0_v1_effects|].
    intros r1 st1 (_ & _ & evs1 & Hlog1 & Hw1). cbn [log init] in Hlog1.
    rewrite app_nil_l in Hlog1. subst evs1.
    destruct r1 as [l1| |]; cbn [is_ok] in Hw1;
      rewrite ?andb_false_r, ?andb_true_r in Hw1; try (rewrite Hw1; finish).
    mstep. eapply post_mono; [apply v1_v2_effects|].
    intros r2 st2 (_ & _ & evs2 & Hlog2 & Hw2). cbn [andb] in Hw2.
    assert (Hws2 : warnings_of (log st2) =
                   if warning then [warning_message "0.x.x" None] else []).
    { rewrite Hlog2, warnings_of_app, Hw1, Hw2. apply app_nil_r. }
    destruct r2 as [l2| |]; try (rewrite Hws2; destruct warning; finish).
    eapply post_mono; [apply deprecate_numb_test_effects|].
    intros r3 st3 (_ & _ & evs3 & Hlog3 & [Hw3|[? _]]); [|discriminate].
    rewrite Hlog3, warnings_of_app, Hws2, Hw3, app_nil_r.
    destruct warning; finish.
  - mstep. mstep.
    destruct (is_deepmd_v1_input doc) as [[|]| |] eqn:Hv1; try finish.
    + mstep. eapply post_mono; [apply v1_v2_effects|].
      intros r2 st2 (_ & _ & evs2 & Hlog2 & Hw2). cbn [log init] in Hlog2.
      rewrite app_nil_l in Hlog2. subst evs2.
      destruct r2 as [l2| |]; cbn [is_ok] in Hw2;
        rewrite ?andb_false_r, ?andb_true_r in Hw2; try (rewrite Hw2; finish).
      eapply post_mono; [apply deprecate_numb_test_effects|].
      intros r3 st3 (_ & _ & evs3 & Hlog3 & [Hw3|[? _]]); [|discriminate].
      rewrite Hlog3, warnings_of_app, Hw2, Hw3, app_nil_r.
      destruct warning; finish.
    + eapply post_mono; [apply deprecate_numb_test_effects|].
      intros r3 st3 (_ & _ & evs3 & Hlog3 & Hw3). cbn [log init] in Hlog3.
      rewrite app_nil_l in Hlog3. subst evs3.
      destruct Hw3 as [->|[-> ->]]; finish.
Qed.

(** Runs a migrator on a state whose lookups are known. *)
Ltac mrun :=
  repeat progress
    (unfold bindM, retM, raise, lift, load, store, alloc, emit, setitem, dump_json,
       _warning_input_v0_v1, _warning_input_v1_v2);
  cbn [heap log init].

(** C2: when the [training] section of the document at [jdata] has a
    [training_data] key, [convert_input_v1_v2] raises its [RuntimeError],
    whatever the warning flag and dump path, and the store and the log are
    as before the call: no warning, no file, no update. *)
Theorem v1_v2_conflict_is_fatal st jdata doc training warning dump :
  heap st !! jdata = Some doc ->
  doc !! "training" = Some (VDict training) ->
  is_Some (training !! "training_data") ->
  convert_input_v1_v2 jdata warning dump st =
  (Raise (RuntimeError v1_v2_conflict), st).
Proof.
  intros Hdoc Htr [v Hv].
  unfold convert_input_v1_v2, dict_get. mrun.
  rewrite Hdoc, Htr. cbn. rewrite has_key_lookup, Hv. reflexivity.
Qed.

(** C10: a document with a top-level [model] key and no top-level
    [training] key makes [update_deepmd_input] fail with [KeyError] on
    [training] in the v1 detector, before any stage runs: the store and the
    log are untouched. *)
Theorem detection_needs_training doc warning dump :
  is_Some (doc !! "model") ->
  doc !! "training" = None ->
  update_deepmd_input caller warning dump (init doc) =
  (Raise (KeyError "training"), init doc).
Proof.
  intros [v Hv] Htr.
  unfold update_deepmd_input, is_deepmd_v0_input, is_deepmd_v1_input, dict_get. mrun.
  rewrite lookup_singleton_eq, has_key_lookup, Hv, Htr. reflexivity.
Qed.

Lemma pruned_without_numb_test doc : has_numb_test doc = false -> pruned doc = doc.
Proof.
  unfold has_numb_test, pruned.
  destruct (doc !! "training") as [[]|] eqn:Htr; try reflexivity.
  rewrite has_key_lookup. destruct (d !! "numb_test") eqn:Hn; [discriminate|].
  intros _. rewrite delete_id by assumption. now apply insert_id.
Qed.

Lemma pruned_has_numb_test doc : has_numb_test (pruned doc) = false.
Proof.
  unfold has_numb_test, pruned.
  destruct (doc !! "training") as [[]|] eqn:Htr; rewrite ?Htr; try reflexivity.
  rewrite lookup_insert_eq, has_key_lookup. now rewrite lookup_delete_eq.
Qed.

Lemma pruned_training_is_section doc :
  training_is_section doc -> training_is_section (pruned doc).
Proof.
  unfold training_is_section, pruned. intros [H|[tr H]]; rewrite H; auto.
  right. rewrite lookup_insert_eq. eauto.
Qed.

(** The pruner on a document whose [training] is absent or a dict: the
    document is pruned, and then dumped if the file can be written. *)
Lemma deprecate_numb_test_run st jdata doc warning dump :
  heap st !! jdata = Some doc ->
  training_is_section doc ->
  deprecate_numb_test jdata warning dump st =
  (written dump jdata,
   State (<[jdata := pruned doc]> (heap st))
     (log st ++ (if has_numb_test doc && warning then [Warning numb_test_message] else [])
             ++ dump_events dump (pruned doc))).
Proof.
  intros Hdoc Hsec.
  assert (Hpop : pop_numb_test jdata st =
                 (Ok (has_numb_test doc),
                  State (<[jdata := pruned doc]> (heap st)) (log st))).
  { unfold pop_numb_test. rewrite (bindM_load _ _ _ _ Hdoc).
    unfold has_numb_test, pruned.
    destruct Hsec as [Htr|[tr Htr]]; rewrite Htr; cbn [default from_option id].
    - rewrite has_key_lookup, lookup_empty. unfold retM.
      now rewrite (insert_id (heap st)), state_eta.
    - rewrite has_key_lookup. destruct (tr !! "numb_test") eqn:Hn; [reflexivity|].
      unfold retM. rewrite delete_id, (insert_id doc) by assumption.
      now rewrite (insert_id (heap st)), state_eta. }
  unfold deprecate_numb_test. rewrite (bindM_ok _ _ _ _ _ Hpop).
  destruct (has_numb_test doc), warning; cbn [andb];
    erewrite bindM_ok by reflexivity;
    erewrite dump_json_run by (cbn [heap]; apply lookup_insert_eq);
    cbn [heap log]; rewrite <- ?app_assoc; reflexivity.
Qed.

(** C9, as the code has it: on a document whose [training] entry is absent
    or a dict the pruner leaves the caller's document without [training]'s
    [numb_test] and returns it; its one failure is that of a requested
    dump whose file cannot be written, which raises [OSError] after the
    document was pruned.  A second application ends in the same way,
    changes no object and emits no warning.  (On a [training] entry that is
    not a dict the pruner raises.) *)
Theorem pruner_idempotent doc warning dump warning' dump' :
  training_is_section doc ->
  exists st1 st2,
    deprecate_numb_test caller warning dump (init doc) = (written dump caller, st1) /\
    heap st1 = {[caller := pruned doc]} /\
    deprecate_numb_test caller warning' dump' st1 = (written dump' caller, st2) /\
    heap st2 = heap st1 /\
    warnings_of (log st2) = warnings_of (log st1).
Proof.
  intros Hsec. eexists _, _.
  split; [apply deprecate_numb_test_run; [apply lookup_singleton_eq | exact Hsec]|].
  cbn [heap init]. rewrite insert_singleton_eq.
  split; [reflexivity|].
  split; [apply deprecate_numb_test_run;
          [apply lookup_singleton_eq | now apply pruned_training_is_section]|].
  cbn [heap log]. rewrite pruned_has_numb_test.
  rewrite (pruned_without_numb_test (pruned doc)) by apply pruned_has_numb_test.
  split; [apply insert_singleton_eq|].
  rewrite !warnings_of_app, !warnings_of_dump. cbn [andb warnings_of omap].
  now rewrite !app_nil_r.
Qed.

Lemma lookup_restructured (tr : gmap string (value (F:=F))) k :
  k ∉ tr_data_keys -> k <> "training_data" -> restructured tr !! k = tr !! k.
Proof.
  intros Hk Hne. unfold restructured. rewrite lookup_insert_ne by done.
  destruct (tr !! k) as [v|] eqn:E.
  - now apply map_lookup_filter_Some.
  - apply map_lookup_filter_None. now left.
Qed.

(** The decay-rate cleanup on a document whose [learning_rate] is a dict. *)
Lemma remove_decay_rate_run st jdata doc lr :
  heap st !! jdata = Some doc ->
  doc !! "learning_rate" = Some (VDict lr) ->
  remove_decay_rate jdata st =
  match lr !! "decay_rate" with
  | None => (Ok tt, st)
  | Some decay_rate =>
      match (let? start_lr := dict_get lr "start_lr" in
             let? training := dict_get doc "training" in
             let? stop_step := getitem training "stop_batch" in
             let? decay_steps := dict_get lr "decay_steps" in
             stop_lr_of decay_rate start_lr stop_step decay_steps) with
      | Ok stop_lr =>
          (Ok tt,
           State (<[jdata := <["learning_rate" :=
                      VDict (delete "decay_rate" (<["stop_lr" := VFloat stop_lr]> lr))]> doc]>
                    (heap st)) (log st))
      | Raise e => (Raise e, st)
      | Unmodelled => (Unmodelled, st)
      end
  end.
Proof.
  intros Hdoc Hlr. unfold remove_decay_rate. mrun.
  rewrite Hdoc. unfold dict_get at 1. rewrite Hlr. cbn [contains getitem].
  destruct (lr !! "decay_rate") as [dr|] eqn:Hdr.
  - rewrite bool_decide_eq_true_2 by eauto.
    unfold dict_get at 1. rewrite Hdr. cbn [rbind].
    destruct (dict_get lr "start_lr"); cbn [rbind]; [|reflexivity..].
    destruct (dict_get doc "training"); cbn [rbind]; [|reflexivity..].
    destruct (getitem _ "stop_batch"); cbn [rbind]; [|reflexivity..].
    destruct (dict_get lr "decay_steps"); reflexivity.
  - rewrite bool_decide_eq_false_2; [reflexivity|]. intros [? ?]. discriminate.
Qed.

(** The v1 -> v2 converter on a v1 document, up to the decay-rate cleanup:
    the caller's [training] is already rebuilt when the cleanup starts. *)
Lemma v1_v2_run st jdata doc tr warning dump :
  heap st !! jdata = Some doc ->
  doc !! "training" = Some (VDict tr) ->
  tr !! "training_data" = None ->
  convert_input_v1_v2 jdata warning dump st =
  bindM (remove_decay_rate jdata)
    (fun _ => closing _warning_input_v1_v2 warning dump jdata)
    (State (<[jdata := <["training" := VDict (restructured tr)]> doc]> (heap st))
       (log st)).
Proof.
  intros Hdoc Htr Hnone. unfold convert_input_v1_v2.
  rewrite (bindM_load _ _ _ _ Hdoc).
  rewrite (dict_get_Some _ _ _ Htr), bindM_lift. cbn [items]. rewrite bindM_lift.
  rewrite has_key_lookup, Hnone.
  now rewrite (bindM_setitem _ _ _ _ _ _ Hdoc).
Qed.

Lemma stop_batch_stays : "stop_batch" ∉ tr_data_keys.
Proof. apply (bool_decide_unpack _). vm_compute. exact I. Qed.

Lemma fresh_not_caller doc : fresh (dom (heap (init doc))) <> caller.
Proof.
  intros H. pose proof (is_fresh (dom (heap (init doc)))) as Hf.
  rewrite H in Hf. apply Hf. cbn [heap init]. apply elem_of_dom.
  rewrite lookup_singleton_eq. eauto.
Qed.

(** The end of a converter, from a state with an object at [l]: the
    warning, the dump, and [l] itself returned, or [OSError] when the file
    cannot be written. *)
Lemma closing_run (warn : option string -> M unit) version warning dump l st d :
  warn = (fun fname => emit (Warning (warning_message version fname))) ->
  heap st !! l = Some d ->
  closing warn warning dump l st =
  (written dump l, State (heap st) (log st ++ closing_events version warning dump d)).
Proof.
  intros -> Hd. unfold closing, closing_events.
  destruct warning.
  - erewrite bindM_ok by reflexivity.
    erewrite dump_json_run by (cbn [heap]; exact Hd).
    cbn [heap log]. now rewrite <- app_assoc.
  - erewrite bindM_ok by reflexivity.
    now rewrite (dump_json_run _ _ _ _ Hd).
Qed.

(** A bind whose continuation ends with [c] is the bind that ends before
    [c], followed by [c]. *)
Lemma bindM_assoc_ext {A B C} (m : M A) (k : A -> M C) (k0 : A -> M B)
    (c : B -> M (F:=F) C) st :
  (forall a st1, k a st1 = bindM (k0 a) c st1) ->
  bindM m k st = bindM (bindM m k0) c st.
Proof.
  intros H. unfold bindM.
  destruct (m st) as [[a| |] st1]; [|reflexivity..].
  now rewrite H.
Qed.

(** [convert_input_v1_v2] with its flags is the silent call followed by
    the closing steps. *)
Lemma v1_v2_split jdata warning dump st :
  convert_input_v1_v2 jdata warning dump st =
  bindM (convert_input_v1_v2 jdata false None)
    (closing _warning_input_v1_v2 warning dump) st.
Proof.
  unfold convert_input_v1_v2.
  apply bindM_assoc_ext. intros d st1.
  apply bindM_assoc_ext. intros tr0 st2.
  apply bindM_assoc_ext. intros tr st3.
  destruct (has_key "training_data" tr); [reflexivity|].
  apply bindM_assoc_ext. intros [] st4.
  apply bindM_assoc_ext. intros [] st5.
  reflexivity.
Qed.

(** The silent [convert_input_v1_v2] on the caller's document: nothing in
    the log; when it returns, the caller's reference; when it fails, the
    store as it was, or with [training] rebuilt in place. *)
Lemma v1_v2_silent doc :
  post (convert_input_v1_v2 caller false None) (init doc) (fun r st' =>
    log st' = [] /\
    match r with
    | Ok l => l = caller /\ is_Some (heap st' !! caller)
    | _ =>
        heap st' = {[caller := doc]} \/
        exists tr, doc !! "training" = Some (VDict tr) /\
          heap st' = {[caller := <["training" := VDict (restructured tr)]> doc]}
    end).
Proof.
  unfold convert_input_v1_v2.
  mstep. mstep. cbn [init heap]. rewrite lookup_singleton_eq.
  repeat mstep; try (cbn beta; split; [reflexivity|left; reflexivity]).
  match goal with
  | H : heap (init doc) !! caller = Some _ |- _ =>
      cbn [init heap] in H; rewrite lookup_singleton_eq in H; injection H as <-
  end.
  eapply post_mono; [apply remove_decay_rate_effects|].
  cbn [heap log init]. intros r2 st2 (Hlog & _ & Hsame & Hal).
  assert (Htr : exists tr, doc !! "training" = Some (VDict tr) /\
                  {[caller := <["training" := VDict (restructured tr)]> doc]} =
                  <[caller := <["training" := VDict (restructured tr)]> doc]>
                    ({[caller := doc]} : gmap loc (gmap string value))).
  { unfold dict_get in *. destruct (doc !! "training") as [[]|]; simplify_eq.
    eexists. split; [reflexivity|]. now rewrite insert_singleton_eq. }
  destruct Htr as (tr & Htr & Heq).
  destruct r2 as [[]| |];
    try (rewrite Hsame by reflexivity; cbn [heap log];
         split; [reflexivity|]; right; exists tr; split; [exact Htr|];
         unfold dict_get, items in *; rewrite Htr in *; simplify_eq;
         symmetry; exact Heq).
  repeat mstep. cbn beta. split; [exact Hlog|]. split; [reflexivity|].
  now apply Hal.
Qed.

(** How [convert_input_v1_v2], with its flags, ends on the caller's
    document: as the silent call does when that one fails, and else with
    the closing steps on the converted document. *)
Lemma v1_v2_ends doc warning dump :
  (exists d',
     convert_input_v1_v2 caller false None (init doc) =
     (Ok caller, State {[caller := d']} []) /\
     convert_input_v1_v2 caller warning dump (init doc) =
     (written dump caller,
      State {[caller := d']} (closing_events "1.x.x" warning dump d'))) \/
  (exists r st1,
     is_ok r = false /\
     convert_input_v1_v2 caller false None (init doc) = (r, st1) /\
     convert_input_v1_v2 caller warning dump (init doc) = (r, st1) /\
     log st1 = [] /\
     (heap st1 = {[caller := doc]} \/
      exists tr, doc !! "training" = Some (VDict tr) /\
        heap st1 = {[caller := <["training" := VDict (restructured tr)]> doc]})).
Proof.
  assert (Hrun : convert_input_v1_v2 caller warning dump (init doc) =
                 match convert_input_v1_v2 caller false None (init doc) with
                 | (Ok l, st1) => closing _warning_input_v1_v2 warning dump l st1
                 | (Raise e, st1) => (Raise e, st1)
                 | (Unmodelled, st1) => (Unmodelled, st1)
                 end).
  { now rewrite (v1_v2_split caller warning dump). }
  rewrite Hrun. clear Hrun.
  pose proof (v1_v2_silent doc) as Hs. unfold post in Hs.
  pose proof (v1_v2_effects caller false (init doc)) as He. unfold post in He.
  destruct (convert_input_v1_v2 caller false None (init doc)) as [r st1].
  cbn [fst snd] in Hs, He. destruct Hs as [Hlog Hs]. destruct He as (Hfr & _).
  destruct r as [l| |]; [|right; eexists _, _; repeat split; auto..].
  destruct Hs as (-> & d' & Hd'). left. exists d'.
  assert (Hst : st1 = State {[caller := d']} []).
  { destruct st1 as [h evs]. cbn [heap log] in *. subst evs. f_equal.
    apply map_eq. intros l. destruct (decide (l = caller)) as [->|Hne].
    - now rewrite lookup_singleton_eq.
    - rewrite Hfr by exact Hne. cbn [init heap].
      now rewrite !lookup_singleton_ne by (apply not_eq_sym; exact Hne). }
  subst st1. split; [reflexivity|].
  now rewrite (closing_run _warning_input_v1_v2 "1.x.x" warning dump caller _ d'
                 eq_refl Hd').
Qed.

(** C3, as the code has it.  A v0-detected input is converted into a new
    document, so the caller's document is as before the call however the
    call ends, and so it is after [convert_input_v0_v1] alone.  A failing
    [convert_input_v1_v2] fails in one of three places.  Up to the check
    of [training_data] the caller's document is as before the call.  In
    the cleanup of [decay_rate] the caller's [training] entry is already
    replaced by the rebuilt section, while [learning_rate] is as before;
    this is what happens when [learning_rate] has [decay_rate] but
    [start_lr], [stop_batch] or [decay_steps] is missing.  In both cases
    nothing is in the log.  At the dump, when the file cannot be written,
    the document is converted in full, as the call without warning and
    dump leaves it, and the warning, if requested, is already emitted. *)
Theorem failure_and_the_callers_document doc warning dump :
  (heap (convert_input_v0_v1 caller warning dump (init doc)).2 !! caller = Some doc) /\
  (is_deepmd_v0_input doc = true ->
   heap (update_deepmd_input caller warning dump (init doc)).2 !! caller = Some doc) /\
  (forall e st', convert_input_v1_v2 caller warning dump (init doc) = (Raise e, st') ->
     (log st' = [] /\
      (heap st' = {[caller := doc]} \/
       exists tr, doc !! "training" = Some (VDict tr) /\
         heap st' = {[caller := <["training" := VDict (restructured tr)]> doc]})) \/
     (e = OSError /\ can_write dump = false /\
      exists st1,
        convert_input_v1_v2 caller false None (init doc) = (Ok caller, st1) /\
        heap st' = heap st1 /\
        log st' = if warning then [Warning (warning_message "1.x.x" dump)] else [])) /\
  (forall tr lr,
     doc !! "training" = Some (VDict tr) ->
     tr !! "training_data" = None ->
     doc !! "learning_rate" = Some (VDict lr) ->
     is_Some (lr !! "decay_rate") ->
     lr !! "start_lr" = None \/ tr !! "stop_batch" = None \/ lr !! "decay_steps" = None ->
     exists k,
       convert_input_v1_v2 caller warning dump (init doc) =
       (Raise (KeyError k),
        State {[caller := <["training" := VDict (restructured tr)]> doc]} [])) /\
  (forall st1,
     convert_input_v1_v2 caller false None (init doc) = (Ok caller, st1) ->
     can_write dump = false ->
     convert_input_v1_v2 caller warning dump (init doc) =
     (Raise OSError,
      State (heap st1)
        (if warning then [Warning (warning_message "1.x.x" dump)] else []))).
Proof.
  assert (Hclosing : forall d', can_write dump = false ->
    closing_events "1.x.x" warning dump d' =
    if warning then [Warning (warning_message "1.x.x" dump)] else []).
  { intros d' Hw. unfold closing_events, dump_events, can_write in *.
    destruct dump as [fname|]; [|discriminate Hw]. rewrite Hw.
    destruct warning; reflexivity. }
  split; [|split; [|split; [|split]]].
  - change (post (convert_input_v0_v1 caller warning dump) (init doc)
              (fun _ st' => heap st' !! caller = Some doc)).
    eapply post_mono; [apply v0_v1_frame|].
    intros r st' Hfr. rewrite Hfr by apply not_eq_sym, fresh_not_caller.
    apply lookup_singleton_eq.
  - intros Hv0.
    change (post (update_deepmd_input caller warning dump) (init doc)
              (fun _ st' => heap st' !! caller = Some doc)).
    unfold update_deepmd_input. mstep. mstep.
    cbn [init heap]. rewrite lookup_singleton_eq, Hv0.
    mstep. eapply post_mono; [apply v0_v1_effects|].
    intros r1 st1 (Hfr1 & Hl1 & _).
    pose proof (fresh_not_caller doc) as Hne.
    assert (H1 : heap st1 !! caller = Some doc).
    { rewrite Hfr1 by apply not_eq_sym, Hne. apply lookup_singleton_eq. }
    destruct r1 as [l1| |]; try exact H1.
    specialize (Hl1 l1 eq_refl). subst l1.
    mstep. eapply post_mono; [apply v1_v2_effects|].
    intros r2 st2 (Hfr2 & Hl2 & _).
    assert (H2 : heap st2 !! caller = Some doc).
    { rewrite Hfr2 by apply not_eq_sym, Hne. exact H1. }
    destruct r2 as [l2| |]; try exact H2.
    specialize (Hl2 l2 eq_refl). subst l2.
    eapply post_mono; [apply deprecate_numb_test_effects|].
    intros r3 st3 (Hfr3 & _).
    rewrite Hfr3 by apply not_eq_sym, Hne. exact H2.
  - intros e st' Hrun.
    destruct (v1_v2_ends doc warning dump)
      as [(d' & H0 & H1)|(r & st1 & _ & _ & H1 & Hlog & Hheap)];
      rewrite H1 in Hrun.
    + unfold written in Hrun. destruct (can_write dump) eqn:Hw; [discriminate Hrun|].
      injection Hrun as <- <-. right. split; [reflexivity|]. split; [reflexivity|].
      eexists. split; [exact H0|]. split; [reflexivity|]. now apply Hclosing.
    + injection Hrun as -> ->. left. split; assumption.
  - intros tr lr Htr Hnone Hlr [vr Hvr] Hmiss.
    rewrite (v1_v2_run _ _ doc tr) by (try apply lookup_singleton_eq; assumption).
    cbn [init heap log]. rewrite insert_singleton_eq.
    unfold bindM at 1.
    rewrite (remove_decay_rate_run _ _ (<["training" := VDict (restructured tr)]> doc) lr)
      by (cbn [heap]; rewrite ?lookup_singleton_eq, ?lookup_insert_ne by done; auto).
    rewrite Hvr. unfold dict_get, getitem, dict_get.
    rewrite lookup_insert_eq.
    destruct (lr !! "start_lr"); cbn [rbind]; [|eexists; reflexivity].
    rewrite (lookup_restructured tr "stop_batch") by (auto using stop_batch_stays).
    destruct (tr !! "stop_batch"); cbn [rbind]; [|eexists; reflexivity].
    destruct (lr !! "decay_steps"); cbn [rbind]; [|eexists; reflexivity].
    exfalso. destruct Hmiss as [?|[?|?]]; discriminate.
  - intros st1 H0 Hw.
    destruct (v1_v2_ends doc warning dump)
      as [(d' & H0' & H1)|(r & st1' & Hr & H0' & _)];
      rewrite H0' in H0.
    + injection H0 as <-. rewrite H1. unfold written. rewrite Hw.
      cbn [heap]. now rewrite Hclosing.
    + injection H0 as -> _. discriminate Hr.
Qed.





End Migrators.

(** ** The properties on the example documents *)

(** The arithmetic of the cleanup on the operands of the spec's example,
    with a [stop_batch] whose quotient is too large for a float, and with
    a [decay_rate] of zero, on which [numpy.log] signals a division by
    zero. *)
Lemma stop_lr_of_example :
  stop_lr_of (VFloat (Dec 5 (-1))) (VFloat (Dec 1 (-2))) (VInt 10000) (VInt 1000) =
  Ok (Mul (Exp (Mul (Log (Dec 5 (-1))) (IntDiv 10000 1000))) (Dec 1 (-2))).
Proof. vm_compute. reflexivity. Qed.

Lemma quotient_too_large :
  stop_lr_of (VFloat (Dec 5 (-1))) (VFloat (Dec 1 (-2))) (VInt (10 ^ 400)) (VInt 1000) =
  Raise OverflowError.
Proof. vm_compute. reflexivity. Qed.

Lemma log_of_zero_signals :
  stop_lr_of (VInt 0) (VFloat (Dec 1 (-2))) (VInt 10000) (VInt 1000) = Unmodelled.
Proof. vm_compute. reflexivity. Qed.

(** The v1 example with a dump file that cannot be written: the call
    raises, the warning is emitted, and the caller's document is the
    converted one. *)
Lemma dump_refused :
  exists d,
    convert_input_v1_v2 caller true None (init example_v1) =
    (Ok caller, State {[caller := d]} [Warning (warning_message "1.x.x" None)]) /\
    convert_input_v1_v2 caller true (Some "") (init example_v1) =
    (Raise OSError, State {[caller := d]} [Warning (warning_message "1.x.x" (Some ""))]).
Proof. eexists. split; vm_compute; reflexivity. Qed.

Lemma one_warning_witness :
  warnings_of (log (update_deepmd_input caller true None (init example_v0)).2) =
  [warning_message "0.x.x" None].
Proof.
  pose proof (one_warning_from_first_stage example_v0 true None) as H.
  cbv zeta in H. destruct H as [_ H].
  assert (Hv0 : is_deepmd_v0_input example_v0 = true) by reflexivity.
  rewrite Hv0 in H. destruct H as [_ H].
  apply H; [reflexivity | vm_compute; reflexivity].
Defined.

Lemma v1_v2_conflict_witness :
  convert_input_v1_v2 caller true (Some "out.json") (init conflicting) =
  (Raise (RuntimeError v1_v2_conflict), init conflicting).
Proof.
  apply (v1_v2_conflict_is_fatal (init conflicting) caller conflicting both_layouts).
  - reflexivity.
  - reflexivity.
  - exists (VDict ∅). reflexivity.
Defined.

(** The caller's document after a failed call is not the one passed in:
    [systems] has left the top of [training]. *)
Lemma partial_migration_observed :
  let out := update_deepmd_input caller true None (init v1_without_start_lr) in
  out.1 = Raise (KeyError "start_lr") /\
  heap out.2 !! caller <> Some v1_without_start_lr.
Proof.
  cbv zeta. split; [vm_compute; reflexivity|].
  intros H.
  apply (f_equal (fun o : option (gmap string (value (F:=fterm))) =>
                    match o with
                    | Some d => match d !! "training" with
                                | Some (VDict tr) => has_key "systems" tr
                                | _ => false
                                end
                    | None => false
                    end)) in H.
  vm_compute in H. discriminate H.
Defined.

Lemma failure_witness :
  exists k,
    convert_input_v1_v2 caller true None (init v1_without_start_lr) =
    (Raise (KeyError k),
     State {[caller := <["training" := VDict (restructured decay_training)]>
                         v1_without_start_lr]} []).
Proof.
  apply (proj1 (proj2 (proj2 (proj2
           (failure_and_the_callers_document v1_without_start_lr true None))))
           decay_training no_start_lr).
  - reflexivity.
  - reflexivity.
  - reflexivity.
  - exists (VFloat (Dec 5 (-1))). reflexivity.
  - left. reflexivity.
Defined.

(** [limit_pref_e] and four more prefactors are missing, and the loss
    transformer returns all the same. *)
Lemma loss_without_prefactors :
  one_prefactor !! "limit_pref_e" = None /\ _loss one_prefactor = Ok one_prefactor.
Proof. split; vm_compute; reflexivity. Defined.

Lemma smth_descriptor_witness :
  exists descriptor, _smth_descriptor example_v0 = Ok descriptor /\
    descriptor !! "resnet_dt" = Some (VBool true).
Proof.
  exact (smth_descriptor_resnet_dt example_v0
           (VList [VInt 16; VInt 32]) (VInt 6) (VList [VInt 25; VInt 50])
           eq_refl eq_refl eq_refl
           (or_introl (ex_intro _ (VInt 16) eq_refl))).
Defined.

Lemma fitting_net_witness :
  exists fitting_net, _fitting_net example_v0 = Ok fitting_net /\
    fitting_net !! "resnet_dt" = Some (VBool true).
Proof.
  exact (fitting_net_resnet_dt example_v0
           (or_introl (ex_intro _ (VList [VInt 240; VInt 240]) eq_refl))).
Defined.



(** [seed] is a key of the source, with value [None], and the fitting-net
    output has no [seed]. *)
Lemma null_seed_dropped :
  null_seed !! "seed" = Some VNone /\
  exists fitting_net, _fitting_net null_seed = Ok fitting_net /\
    fitting_net !! "seed" = None.
Proof.
  split; [reflexivity|]. eexists. split; vm_compute; reflexivity.
Defined.

Lemma optional_fields_witness :
  exists training, _training example_v0 = Ok training /\
    training !! "seed" = carried_seed example_v0 /\
    training !! "profiling" = example_v0 !! "profiling".
Proof.
  assert (Hok : is_ok (_training example_v0) = true) by (vm_compute; reflexivity).
  destruct (_training example_v0) as [training| |] eqn:E; [|discriminate Hok..].
  exists training. split; [reflexivity|].
  apply (proj1 (proj2 (proj2 (optional_fields_carried_over example_v0)))).
  exact E.
Defined.

(** [training] is a number, and the pruner raises. *)
Lemma pruner_raises :
  deprecate_numb_test caller true None (init scalar_training) =
  (Raise AttributeError, init scalar_training).
Proof. vm_compute. reflexivity. Defined.

Lemma pruner_witness :
  exists st1 st2,
    deprecate_numb_test caller true None (init example_v2) = (Ok caller, st1) /\
    heap st1 = {[caller := pruned example_v2]} /\
    deprecate_numb_test caller true None st1 = (Ok caller, st2) /\
    heap st2 = heap st1 /\
    warnings_of (log st2) = warnings_of (log st1).
Proof.
  apply (pruner_idempotent example_v2 true None true None).
  right. eexists. reflexivity.
Defined.

Lemma detection_witness :
  update_deepmd_input caller true None (init model_only) =
  (Raise (KeyError "training"), init model_only).
Proof.
  apply (detection_needs_training model_only true None).
  - exists (VDict ∅). reflexivity.
  - reflexivity.
Defined.

(** * Further properties of the module *)

(** ** The field copier and the transformers without required keys *)

Section Copier.

Context {F : Type} {FL : Float64 F}.

Implicit Types (jdata src dst d : gmap string (value (F:=F))) (k : string).

(** X1: [_jcopy] gives the listed keys that the source has the source's
    value, and leaves every other entry of the destination as it was: it
    removes nothing and copies nothing outside the list. *)
Theorem jcopy_contract src dst keys :
  (forall k v, k ∈ keys -> src !! k = Some v -> _jcopy src dst keys !! k = Some v) /\
  (forall k, k ∉ keys \/ src !! k = None -> _jcopy src dst keys !! k = dst !! k).
Proof.
  split.
  - intros k v Hin Hk. rewrite lookup_jcopy, decide_True, Hk by assumption. reflexivity.
  - intros k [Hnin|Hnone]; rewrite lookup_jcopy.
    + now rewrite decide_False.
    + rewrite Hnone. now destruct (decide _).
Qed.

(** X2: copying the same keys from the same source a second time changes
    nothing. *)
Theorem jcopy_idempotent src dst keys :
  _jcopy src (_jcopy src dst keys) keys = _jcopy src dst keys.
Proof.
  apply map_eq. intros k. rewrite !lookup_jcopy.
  destruct (decide (k ∈ keys)); [|reflexivity].
  now destruct (src !! k).
Qed.

(** X3: the non-smooth descriptor never fails; its [type] is "loc_frame"
    whatever the source holds under [type], the four keys [sel_a], [sel_r],
    [rcut], [axis_rule] are there exactly when the source has them, with the
    source's value, and there is no other key. *)
Theorem nonsmth_descriptor_shape jdata k :
  _nonsmth_descriptor jdata !! k =
  if decide (k = "type") then Some (VStr "loc_frame")
  else if decide (k ∈ ["sel_a"; "sel_r"; "rcut"; "axis_rule"]) then jdata !! k
  else None.
Proof.
  unfold _nonsmth_descriptor. rewrite lookup_jcopy.
  destruct (decide (k = "type")) as [->|Hne].
  - rewrite decide_False; [apply lookup_insert_eq|].
    intros H. repeat (apply elem_of_cons in H as [H|H]; [discriminate H|]).
    now apply elem_of_nil in H.
  - rewrite lookup_insert_ne, lookup_empty by done.
    destruct (decide _); [|reflexivity]. now destruct (jdata !! k).
Qed.

(** X4: the learning-rate section never fails; its [type] is "exp", the
    keys [decay_steps], [decay_rate], [start_lr] are there exactly when the
    source has them, with the source's value, and there is no other key. *)
Theorem learning_rate_shape jdata k :
  _learning_rate jdata !! k =
  if decide (k = "type") then Some (VStr "exp")
  else if decide (k ∈ ["decay_steps"; "decay_rate"; "start_lr"]) then jdata !! k
  else None.
Proof.
  unfold _learning_rate. rewrite lookup_jcopy.
  destruct (decide (k = "type")) as [->|Hne].
  - rewrite decide_False; [apply lookup_insert_eq|].
    intros H. repeat (apply elem_of_cons in H as [H|H]; [discriminate H|]).
    now apply elem_of_nil in H.
  - rewrite lookup_insert_ne, lookup_empty by done.
    destruct (decide _); [|reflexivity]. now destruct (jdata !! k).
Qed.

End Copier.

(** ** The smooth descriptor and the training section *)

Ltac rcases :=
  repeat match goal with
    | H : context [rbind ?r _] |- _ =>
        destruct r eqn:?; simpl in H; try discriminate H
    | H : context [if ?b then _ else _] |- _ =>
        destruct b eqn:?; simpl in H; try discriminate H
    | H : Ok _ = Ok _ |- _ => injection H as <-
    end.

Section Sections.

Context {F : Type} {FL : Float64 F}.

Implicit Types (jdata d : gmap string (value (F:=F))) (k : string).

#[local] Arguments _jcopy : simpl never.

Lemma smth_descriptor_without_rcut jdata sel :
  jdata !! "sel_a" = Some sel -> jdata !! "rcut" = None ->
  _smth_descriptor jdata = Raise (KeyError "rcut").
Proof.
  intros Hsel Hrcut. unfold _smth_descriptor, dict_get.
  rewrite Hsel. cbn [rbind].
  rewrite lookup_jcopy, decide_True by (apply list_elem_of_singleton; reflexivity).
  rewrite Hrcut, !lookup_insert_ne by done.
  rewrite lookup_copy_seed, lookup_empty. reflexivity.
Qed.

Lemma smth_descriptor_without_neuron jdata sel rcut :
  jdata !! "sel_a" = Some sel -> jdata !! "rcut" = Some rcut ->
  jdata !! "filter_neuron" = None ->
  _smth_descriptor jdata = Raise (KeyError "filter_neuron").
Proof.
  intros Hsel Hrcut Hneuron. unfold _smth_descriptor, dict_get.
  rewrite Hsel. cbn [rbind].
  rewrite lookup_jcopy, decide_True by (apply list_elem_of_singleton; reflexivity).
  rewrite Hrcut. cbn [rbind]. now rewrite Hneuron.
Qed.

(** X5: the smooth descriptor reports the first missing key among [sel_a],
    [rcut], [filter_neuron], in this order; [rcut] is required even when
    the source gives [rcut_smth]. *)
Theorem smth_descriptor_required_keys jdata :
  match jdata !! "sel_a", jdata !! "rcut", jdata !! "filter_neuron" with
  | None, _, _ => _smth_descriptor jdata = Raise (KeyError "sel_a")
  | Some _, None, _ => _smth_descriptor jdata = Raise (KeyError "rcut")
  | Some _, Some _, None => _smth_descriptor jdata = Raise (KeyError "filter_neuron")
  | Some _, Some _, Some _ => True
  end.
Proof.
  destruct (jdata !! "sel_a") as [sel|] eqn:Hsel.
  - destruct (jdata !! "rcut") as [rcut|] eqn:Hrcut.
    + destruct (jdata !! "filter_neuron") eqn:Hneuron; [exact I|].
      exact (smth_descriptor_without_neuron jdata sel rcut Hsel Hrcut Hneuron).
    + exact (smth_descriptor_without_rcut jdata sel Hsel Hrcut).
  - unfold _smth_descriptor. now rewrite (dict_get_None _ _ Hsel).
Qed.

(** X6: when the smooth descriptor returns, [type] is "se_a", [sel] is the
    source's [sel_a], [rcut] the source's [rcut], [rcut_smth] the source's
    [rcut_smth] or else its [rcut], [neuron] the source's [filter_neuron],
    and the output has no key outside [seed], [type], [sel], [rcut],
    [rcut_smth], [neuron], [axis_neuron], [resnet_dt]. *)
Theorem smth_descriptor_fields jdata d :
  _smth_descriptor jdata = Ok d ->
  d !! "type" = Some (VStr "se_a") /\
  d !! "sel" = jdata !! "sel_a" /\
  d !! "rcut" = jdata !! "rcut" /\
  d !! "rcut_smth" =
    match jdata !! "rcut_smth" with
    | Some v => Some v
    | None => jdata !! "rcut"
    end /\
  d !! "neuron" = jdata !! "filter_neuron" /\
  forall k, is_Some (d !! k) ->
    k ∈ ["seed"; "type"; "sel"; "rcut"; "rcut_smth"; "neuron"; "axis_neuron"; "resnet_dt"].
Proof.
  intros H.
  destruct (jdata !! "sel_a") as [sel|] eqn:Hsel;
    [|unfold _smth_descriptor in H;
      rewrite (dict_get_None _ _ Hsel) in H; discriminate H].
  destruct (jdata !! "rcut") as [rcut|] eqn:Hrcut;
    [|rewrite (smth_descriptor_without_rcut jdata sel Hsel Hrcut) in H;
      discriminate H].
  destruct (jdata !! "filter_neuron") as [neuron|] eqn:Hneuron;
    [|rewrite (smth_descriptor_without_neuron jdata sel rcut Hsel Hrcut Hneuron) in H;
      discriminate H].
  unfold _smth_descriptor in H.
  rewrite (dict_get_Some _ _ _ Hsel) in H. cbn [rbind] in H.
  rewrite (dict_get_Some "rcut" _ rcut) in H
    by (rewrite lookup_jcopy, decide_True, Hrcut;
        [reflexivity | apply list_elem_of_singleton; reflexivity]).
  cbn [rbind] in H. rewrite (dict_get_Some _ _ _ Hneuron) in H. cbn [rbind] in H.
  assert (Hbase : forall k,
    (<["rcut_smth" := default rcut (jdata !! "rcut_smth")]>
       (_jcopy jdata (<["sel" := sel]> (<["type" := VStr "se_a"]> (copy_seed jdata ∅)))
          ["rcut"]) : gmap string value) !! k =
    if decide (k = "rcut_smth") then Some (default rcut (jdata !! "rcut_smth"))
    else if decide (k = "rcut") then Some rcut
    else if decide (k = "sel") then Some sel
    else if decide (k = "type") then Some (VStr "se_a")
    else if decide (k = "seed") then carried_seed jdata
    else None).
  { intros k. rewrite lookup_insert. destruct (decide ("rcut_smth" = k)) as [<-|Hn1].
    { now rewrite decide_True. }
    rewrite decide_False by done.
    rewrite lookup_jcopy.
    destruct (decide (k = "rcut")) as [->|Hn2].
    { rewrite decide_True, Hrcut by (apply list_elem_of_singleton; reflexivity).
      reflexivity. }
    rewrite decide_False by (now intros ->%list_elem_of_singleton).
    rewrite lookup_insert. destruct (decide ("sel" = k)) as [<-|Hn3].
    { now rewrite decide_True. }
    rewrite decide_False by done.
    rewrite lookup_insert. destruct (decide ("type" = k)) as [<-|Hn4].
    { now rewrite decide_True. }
    rewrite decide_False by done.
    rewrite lookup_copy_seed, lookup_empty. unfold carried_seed.
    destruct (decide (k = "seed")) as [->|]; [|reflexivity].
    destruct (jdata !! "seed") as [[]|]; reflexivity. }
  assert (Hd : forall k, k <> "neuron" -> k <> "axis_neuron" -> k <> "resnet_dt" ->
    d !! k =
    if decide (k = "rcut_smth") then Some (default rcut (jdata !! "rcut_smth"))
    else if decide (k = "rcut") then Some rcut
    else if decide (k = "sel") then Some sel
    else if decide (k = "type") then Some (VStr "se_a")
    else if decide (k = "seed") then carried_seed jdata
    else None).
  { intros k H1 H2 H3. rcases; rewrite !lookup_insert_ne by done; apply Hbase. }
  repeat split.
  - now rewrite Hd.
  - now rewrite Hd.
  - now rewrite Hd.
  - rewrite Hd by done. cbn. now destruct (jdata !! "rcut_smth").
  - rcases; rewrite !lookup_insert_ne by done; apply lookup_insert_eq.
  - intros k Hk.
    destruct (decide (k = "neuron")) as [->|H1]; [set_solver|].
    destruct (decide (k = "axis_neuron")) as [->|H2]; [set_solver|].
    destruct (decide (k = "resnet_dt")) as [->|H3]; [set_solver|].
    rewrite Hd in Hk by assumption.
    repeat (destruct (decide _) as [->|?] in Hk; [set_solver|]).
    now destruct Hk.
Qed.

Ltac look_in_inserts :=
  repeat first [ rewrite lookup_insert_eq | rewrite lookup_insert_ne by done ].

(** Splits [_training] along the source keys it looks up. *)
Ltac training_cases H jdata :=
  unfold _training in H; rewrite !has_key_lookup in H; unfold dict_get in H;
  repeat match type of H with
    | context [match jdata !! ?key with _ => _ end] =>
        destruct (jdata !! key) eqn:?; cbn [rbind] in H; try discriminate H
    | context [if truthy ?p then _ else _] =>
        destruct (truthy p) eqn:?; cbn [rbind] in H; try discriminate H
    end;
  injection H as <-.

(** X7: when the training section is built, [disp_file] is the source's
    or else "lcurve.out"; the four data keys and the six required keys have
    the source's entry; [profiling_file] is there exactly when the source's
    [profiling] is true, with the source's value. *)
Theorem training_fields jdata t :
  _training jdata = Ok t ->
  t !! "disp_file" = Some (default (VStr "lcurve.out") (jdata !! "disp_file")) /\
  (forall k, k ∈ ["systems"; "set_prefix"; "stop_batch"; "batch_size"] ->
     t !! k = jdata !! k) /\
  (forall k, k ∈ training_required -> t !! k = jdata !! k) /\
  t !! "profiling_file" =
    match jdata !! "profiling" with
    | Some p => if truthy p then jdata !! "profiling_file" else None
    | None => None
    end.
Proof.
  intros H. training_cases H jdata.
  all: split; [look_in_inserts; reflexivity|].
  all: split;
    [intros k Hk; repeat (apply elem_of_cons in Hk as [->|Hk]);
     try (now apply elem_of_nil in Hk);
     look_in_inserts; rewrite lookup_jcopy; simpl;
     rewrite lookup_copy_seed, lookup_empty; simpl;
     match goal with
     | |- match ?o with _ => _ end = _ => destruct o
     end; reflexivity|].
  all: split;
    [intros k Hk; unfold training_required in Hk;
     repeat (apply elem_of_cons in Hk as [->|Hk]);
     try (now apply elem_of_nil in Hk); look_in_inserts; congruence|].
  all: look_in_inserts; try congruence;
    rewrite lookup_jcopy; simpl; rewrite lookup_copy_seed, lookup_empty; reflexivity.
Qed.

(** X8: the training section reports the first of [disp_freq],
    [numb_test], [save_freq], [save_ckpt], [disp_training], [time_training]
    that the source lacks. *)
Theorem training_required_keys jdata i k :
  training_required !! i = Some k ->
  (forall k', k' ∈ take i training_required -> is_Some (jdata !! k')) ->
  jdata !! k = None ->
  _training jdata = Raise (KeyError k).
Proof.
  intros Hi Hbefore Hk.
  assert (Hpre : forall j k', (j < i)%nat -> training_required !! j = Some k' ->
                   dict_get jdata k' = Ok (default VNone (jdata !! k'))).
  { intros j k' Hj Hk'. destruct (Hbefore k') as [v Hv].
    - apply list_elem_of_lookup. exists j. now rewrite lookup_take_lt.
    - unfold dict_get. now rewrite Hv. }
  unfold _training. rewrite has_key_lookup.
  assert (Hdisp : exists t0 : gmap string (value (F:=F)),
    (if match jdata !! "disp_file" with Some _ => true | None => false end
     then let? v := dict_get jdata "disp_file" in
          Ok (<["disp_file" := v]>
                (<["disp_file" := VStr "lcurve.out"]>
                   (_jcopy jdata (copy_seed jdata ∅)
                      ["systems"; "set_prefix"; "stop_batch"; "batch_size"])))
     else Ok (<["disp_file" := VStr "lcurve.out"]>
                (_jcopy jdata (copy_seed jdata ∅)
                   ["systems"; "set_prefix"; "stop_batch"; "batch_size"]))) = Ok t0).
  { unfold dict_get. destruct (jdata !! "disp_file"); eexists; reflexivity. }
  destruct Hdisp as [t0 ->]. cbn [rbind].
  do 6 (destruct i as [|i];
        [injection Hi as <-; rewrite (dict_get_None _ _ Hk); reflexivity|];
        try (erewrite (Hpre 0%nat) by (first [lia | reflexivity]); cbn [rbind]);
        try (erewrite (Hpre 1%nat) by (first [lia | reflexivity]); cbn [rbind]);
        try (erewrite (Hpre 2%nat) by (first [lia | reflexivity]); cbn [rbind]);
        try (erewrite (Hpre 3%nat) by (first [lia | reflexivity]); cbn [rbind]);
        try (erewrite (Hpre 4%nat) by (first [lia | reflexivity]); cbn [rbind])).
  discriminate Hi.
Qed.

(** X9: with the six required keys in the source and a true [profiling],
    the training section needs [profiling_file]: without it the lookup
    fails; a false [profiling] does not read it. *)
Theorem profiling_file_required jdata p :
  (forall k, k ∈ training_required -> is_Some (jdata !! k)) ->
  jdata !! "profiling" = Some p ->
  jdata !! "profiling_file" = None ->
  if truthy p then _training jdata = Raise (KeyError "profiling_file")
  else is_ok (_training jdata) = true.
Proof.
  intros Hreq Hp Hfile.
  assert (Hget : forall k, k ∈ training_required -> exists v, jdata !! k = Some v).
  { intros k Hk. destruct (Hreq k Hk) as [v Hv]. eauto. }
  destruct (Hget "disp_freq") as [v1 H1]; [repeat constructor|].
  destruct (Hget "numb_test") as [v2 H2]; [repeat constructor|].
  destruct (Hget "save_freq") as [v3 H3]; [repeat constructor|].
  destruct (Hget "save_ckpt") as [v4 H4]; [repeat constructor|].
  destruct (Hget "disp_training") as [v5 H5]; [repeat constructor|].
  destruct (Hget "time_training") as [v6 H6]; [repeat constructor|].
  unfold _training. rewrite !has_key_lookup. unfold dict_get.
  rewrite H1, H2, H3, H4, H5, H6, Hp, Hfile.
  destruct (jdata !! "disp_file"); cbn [rbind]; destruct (truthy p); reflexivity.
Qed.

(** X10: the fitting net fails exactly when the alias lookup of its
    [neuron] entry fails, with that error; when the lookup returns, the
    output has the value found under [neuron] and no key outside [seed],
    [neuron], [resnet_dt]. *)
Theorem fitting_net_follows_alias_lookup jdata :
  match j_deprecated jdata "fitting_neuron" ["n_neuron"] with
  | Ok neuron =>
      exists d, _fitting_net jdata = Ok d /\
        d !! "neuron" = Some neuron /\
        forall k, is_Some (d !! k) -> k ∈ ["seed"; "neuron"; "resnet_dt"]
  | Raise e => _fitting_net jdata = Raise e
  | Unmodelled => _fitting_net jdata = Unmodelled
  end.
Proof.
  unfold _fitting_net.
  destruct (j_deprecated jdata "fitting_neuron" ["n_neuron"]) as [neuron| |];
    [|reflexivity..].
  cbn [rbind]. rewrite !has_key_lookup. unfold dict_get.
  assert (Hkeys : forall (d : gmap string (value (F:=F))) k,
    (forall k', k' <> "seed" -> k' <> "neuron" -> k' <> "resnet_dt" -> d !! k' = None) ->
    is_Some (d !! k) -> k ∈ ["seed"; "neuron"; "resnet_dt"]).
  { intros d k Hd Hk.
    destruct (decide (k = "seed")) as [->|H1]; [set_solver|].
    destruct (decide (k = "neuron")) as [->|H2]; [set_solver|].
    destruct (decide (k = "resnet_dt")) as [->|H3]; [set_solver|].
    rewrite Hd in Hk by assumption. now destruct Hk. }
  destruct (jdata !! "resnet_dt"), (jdata !! "fitting_resnet_dt"); cbn [rbind];
    eexists; (split; [reflexivity|]);
    (split; [look_in_inserts; reflexivity|]);
    intros k; apply Hkeys; intros k' H1 H2 H3;
    rewrite !lookup_insert_ne by done; rewrite lookup_copy_seed, lookup_empty;
    now rewrite decide_False.
Qed.

(** X11: when [_model] returns, its output has the two entries
    [descriptor] and [fitting_net] and no other; [fitting_net] is what
    [_fitting_net] returns; [descriptor] is what [_smth_descriptor]
    returns, of type "se_a", when [use_smooth] is true in Python's sense,
    and what [_nonsmth_descriptor] returns, of type "loc_frame", when it
    is false (also [None], 0, an empty string, list or dict). *)
Theorem model_descriptor_follows_use_smooth jdata smooth model :
  _model jdata smooth = Ok model ->
  exists descriptor fitting_net,
    model = <["fitting_net" := VDict fitting_net]>
              (<["descriptor" := VDict descriptor]> ∅) /\
    _fitting_net jdata = Ok fitting_net /\
    (if truthy smooth then _smth_descriptor jdata = Ok descriptor
     else descriptor = _nonsmth_descriptor jdata) /\
    descriptor !! "type" = Some (VStr (if truthy smooth then "se_a" else "loc_frame")).
Proof.
  unfold _model. intros H.
  destruct (truthy smooth) eqn:Hs.
  - destruct (_smth_descriptor jdata) as [descriptor| |] eqn:Hd;
      cbn [rbind] in H; try discriminate H.
    destruct (_fitting_net jdata) as [fitting_net| |];
      cbn [rbind] in H; try discriminate H.
    injection H as <-. exists descriptor, fitting_net.
    split; [reflexivity|]. split; [reflexivity|]. split; [reflexivity|].
    unfold _smth_descriptor in Hd. rcases; look_in_inserts;
      rewrite lookup_jcopy; simpl; look_in_inserts; reflexivity.
  - cbn [rbind] in H.
    destruct (_fitting_net jdata) as [fitting_net| |];
      cbn [rbind] in H; try discriminate H.
    injection H as <-. exists (_nonsmth_descriptor jdata), fitting_net.
    split; [reflexivity|]. split; [reflexivity|]. split; [reflexivity|].
    unfold _nonsmth_descriptor. rewrite lookup_jcopy. simpl. apply lookup_insert_eq.
Qed.

End Sections.

(** ** The converters, object by object *)

Section Converters.

Context {F : Type} {FL : Float64 F} {FS : FileSystem}.

Implicit Types (doc d : gmap string (value (F:=F))) (st : state (F:=F)).
Implicit Types (jdata : loc) (warning : bool) (dump : option string).

Lemma dumps_of_app (evs1 evs2 : list (event (F:=F))) :
  dumps_of (evs1 ++ evs2) = (dumps_of evs1 ++ dumps_of evs2)%list.
Proof. apply omap_app. Qed.

Lemma dumps_of_closing version warning dump d :
  dumps_of (closing_events version warning dump d) =
  match dump with
  | Some fname => if writable fname then [(fname, d)] else []
  | None => []
  end.
Proof.
  unfold closing_events, dump_events.
  destruct warning, dump as [fname|]; try reflexivity; now destruct (writable fname).
Qed.

Lemma warnings_of_closing version warning dump d :
  warnings_of (closing_events version warning dump d) =
  if warning then [warning_message version dump] else [].
Proof.
  unfold closing_events. rewrite warnings_of_app, warnings_of_dump.
  destruct warning; reflexivity.
Qed.

Lemma fresh_unused st l : is_Some (heap st !! l) -> l <> fresh (dom (heap st)).
Proof.
  intros Hl ->. apply (is_fresh (dom (heap st))). now apply elem_of_dom.
Qed.

(** X12: when the source has [use_smooth] and the four transformers return,
    [convert_input_v0_v1] builds a new object, whose document has exactly
    the entries [model], [learning_rate], [loss] and [training] that the
    transformers built, and returns it; no object of the store is updated;
    the warning, if requested, names the dump file and comes before the
    dump, and the file receives the new document.  The one failure left is
    that of a dump file that cannot be written: [OSError], after the
    document was built and the warning emitted. *)
Theorem v0_v1_builds_new_document st jdata d smooth model loss training warning dump :
  heap st !! jdata = Some d ->
  d !! "use_smooth" = Some smooth ->
  _model d smooth = Ok model ->
  _loss d = Ok loss ->
  _training d = Ok training ->
  let output := fresh (dom (heap st)) in
  let out : gmap string value :=
    <["training" := VDict training]>
      (<["loss" := VDict loss]>
         (<["learning_rate" := VDict (_learning_rate d)]>
            (<["model" := VDict model]> ∅))) in
  heap st !! output = None /\
  convert_input_v0_v1 jdata warning dump st =
  (written dump output,
   State (<[output := out]> (heap st))
     (log st ++ closing_events "0.x.x" warning dump out)).
Proof.
  intros Hd Hs Hmodel Hloss Htraining output out.
  assert (Hfresh : heap st !! output = None).
  { apply not_elem_of_dom, is_fresh. }
  split; [exact Hfresh|].
  assert (Hne : jdata <> output) by (apply fresh_unused; eauto).
  unfold convert_input_v0_v1.
  unfold bindM at 1, alloc. fold output. cbn beta iota zeta.
  rewrite (bindM_load _ _ _ d) by (cbn [heap]; now rewrite lookup_insert_ne).
  rewrite (dict_get_Some _ _ _ Hs), bindM_lift, Hmodel, bindM_lift.
  rewrite (bindM_setitem _ _ _ _ _ ∅) by (cbn [heap]; apply lookup_insert_eq).
  cbn [heap log].
  erewrite bindM_setitem by (cbn [heap]; apply lookup_insert_eq).
  cbn [heap log]. rewrite Hloss, bindM_lift.
  erewrite bindM_setitem by (cbn [heap]; apply lookup_insert_eq).
  cbn [heap log]. rewrite Htraining, bindM_lift.
  erewrite bindM_setitem by (cbn [heap]; apply lookup_insert_eq).
  cbn [heap log]. rewrite !insert_insert_eq.
  refine (closing_run _warning_input_v0_v1 "0.x.x" warning dump output
            (State (<[output := out]> (heap st)) (log st)) out eq_refl _).
  cbn [heap]. apply lookup_insert_eq.
Qed.

(** X13: without [use_smooth] in the source, [convert_input_v0_v1] fails
    with [KeyError] on [use_smooth] before any transformer runs, whatever
    else the source lacks; it has emitted no warning and written no file. *)
Theorem v0_v1_needs_use_smooth st jdata d warning dump :
  heap st !! jdata = Some d ->
  d !! "use_smooth" = None ->
  exists st',
    convert_input_v0_v1 jdata warning dump st = (Raise (KeyError "use_smooth"), st') /\
    log st' = log st /\
    forall l, is_Some (heap st !! l) -> heap st' !! l = heap st !! l.
Proof.
  intros Hd Hs.
  assert (Hne : jdata <> fresh (dom (heap st))) by (apply fresh_unused; eauto).
  unfold convert_input_v0_v1.
  unfold bindM at 1, alloc. cbn beta iota zeta.
  rewrite (bindM_load _ _ _ d) by (cbn [heap]; now rewrite lookup_insert_ne).
  rewrite (dict_get_None _ _ Hs).
  eexists. split; [reflexivity|]. split; [reflexivity|].
  intros l Hl. cbn [heap]. apply lookup_insert_ne, not_eq_sym, fresh_unused, Hl.
Qed.

(** X14: however [convert_input_v0_v1] fails, it has written no file and
    every object of the store is as before.  It has emitted no warning
    either, unless the failure is that of writing the dump file, which
    comes after the warning: the log then holds the warning, if one was
    requested, and the call raises [OSError]. *)
Theorem v0_v1_failure_keeps_the_store st jdata warning dump r st' :
  convert_input_v0_v1 jdata warning dump st = (r, st') ->
  is_ok r = false ->
  (forall l, is_Some (heap st !! l) -> heap st' !! l = heap st !! l) /\
  (log st' = log st \/
   r = Raise OSError /\ can_write dump = false /\
   log st' = (log st ++ if warning then [Warning (warning_message "0.x.x" dump)]
                        else [])%list).
Proof.
  intros Hrun.
  apply (post_run (convert_input_v0_v1 jdata warning dump) st
           (fun r st' => is_ok r = false ->
              (forall l, is_Some (heap st !! l) -> heap st' !! l = heap st !! l) /\
              (log st' = log st \/
               r = Raise OSError /\ can_write dump = false /\
               log st' = (log st ++ if warning
                                    then [Warning (warning_message "0.x.x" dump)]
                                    else [])%list))
           r st'); [|exact Hrun].
  unfold convert_input_v0_v1.
  repeat mstep; cbn beta; cbn [is_ok]; intros Hr; try discriminate Hr;
    (split; [intros l Hl; cbn [heap];
             rewrite ?lookup_insert_ne by (apply not_eq_sym, fresh_unused, Hl);
             reflexivity|]);
    cbn [heap log can_write];
    first [ left; reflexivity
          | right; split; [reflexivity|]; split; [assumption|]; reflexivity ].
Qed.

(** [mstep], then the lookups that the hypotheses decide. *)
Ltac mstep_known :=
  mstep;
  repeat match goal with
    | H : heap ?s !! ?l = Some _ |- context [heap ?s !! ?l] => rewrite H
    end;
  cbn beta iota.

Lemma restructured_data_key (tr : gmap string (value (F:=F))) k :
  k ∈ tr_data_keys -> restructured tr !! k = None.
Proof.
  intros Hk. unfold restructured.
  rewrite lookup_insert_ne.
  - apply map_lookup_filter_None. right. intros x _ Hn. now apply Hn.
  - intros <-. revert Hk. apply (bool_decide_unpack _). vm_compute. exact I.
Qed.

(** A returning [remove_decay_rate] leaves every entry of the document
    but [learning_rate] as it was, and writes nothing in the log. *)
Lemma remove_decay_rate_keeps st jdata d :
  heap st !! jdata = Some d ->
  post (remove_decay_rate jdata) st (fun r st' =>
    is_ok r = true ->
    exists d', heap st' = <[jdata := d']> (heap st) /\ log st' = log st /\
      forall k, k <> "learning_rate" -> d' !! k = d !! k).
Proof.
  intros Hd. unfold remove_decay_rate.
  repeat mstep_known; cbn beta; cbn [is_ok]; intros Hr; try discriminate Hr.
  - eexists. split; [reflexivity|]. split; [reflexivity|].
    intros k Hk. now apply lookup_insert_ne.
  - exists d. split; [|split; [reflexivity|reflexivity]].
    symmetry. now apply insert_id.
Qed.

(** A returning [convert_input_v1_v2]: the reference it was given, the
    document there with [training] rebuilt, the entries other than
    [training] and [learning_rate] as they were, and the closing events. *)
Lemma v1_v2_result st jdata d warning dump :
  heap st !! jdata = Some d ->
  post (convert_input_v1_v2 jdata warning dump) st (fun r st' =>
    forall l, r = Ok l ->
      l = jdata /\
      exists tr d',
        d !! "training" = Some (VDict tr) /\
        tr !! "training_data" = None /\
        d' !! "training" = Some (VDict (restructured tr)) /\
        (forall k, k <> "learning_rate" -> k <> "training" -> d' !! k = d !! k) /\
        st' = State (<[jdata := d']> (heap st))
                (log st ++ closing_events "1.x.x" warning dump d')).
Proof.
  intros Hd. unfold convert_input_v1_v2.
  repeat mstep_known; try (cbn beta; intros l Hl; discriminate Hl).
  match goal with
  | H1 : dict_get d "training" = Ok ?a, H2 : items ?a = Ok ?tr,
    H3 : has_key "training_data" ?tr = false |- _ =>
      assert (Htr : d !! "training" = Some (VDict tr))
        by (unfold dict_get in H1; destruct (d !! "training") as [v|];
            [|discriminate H1]; injection H1 as <-; destruct v; cbn in H2;
            try discriminate H2; injection H2 as <-; reflexivity);
      assert (Hnone : tr !! "training_data" = None)
        by (rewrite has_key_lookup in H3; now destruct (tr !! "training_data"));
      clear H1 H2 H3; fold (restructured tr)
  end.
  eapply post_mono.
  { apply (remove_decay_rate_keeps _ jdata). cbn [heap]. apply lookup_insert_eq. }
  cbn [heap log]. intros r2 st2 Hkeep.
  destruct r2 as [[]| |]; try (intros l Hl; discriminate Hl).
  destruct (Hkeep eq_refl) as (d' & Hheap & Hlog & Hsame).
  rewrite insert_insert_eq in Hheap.
  unfold post.
  change (bindM (if warning then _warning_input_v1_v2 dump else retM tt)
            (fun _ => bindM (dump_json dump jdata) (fun _ => retM jdata)) st2)
    with (closing _warning_input_v1_v2 warning dump jdata st2).
  rewrite (closing_run _warning_input_v1_v2 "1.x.x" warning dump jdata st2 d')
    by (first [reflexivity | rewrite Hheap; apply lookup_insert_eq]).
  cbn [fst snd]. intros l Hl. unfold written in Hl.
  destruct (can_write dump); [|discriminate Hl].
  injection Hl as <-. split; [reflexivity|].
  eexists _, d'. split; [exact Htr|]. split; [exact Hnone|].
  split; [rewrite Hsame by done; apply lookup_insert_eq|].
  split; [intros k H1 H2; rewrite Hsame by done; now apply lookup_insert_ne|].
  now rewrite Hheap, Hlog.
Qed.

(** X15: when [convert_input_v1_v2] returns, it returns the reference it
    was given, and the document there has its [training] section split in
    two: [training_data] holds the entries under the seven data keys,
    [training] keeps the others, and no entry is lost.  The entries other
    than [training] and [learning_rate] and the other objects of the store
    are as before. *)
Theorem v1_v2_partitions_training st jdata d warning dump l st' :
  heap st !! jdata = Some d ->
  convert_input_v1_v2 jdata warning dump st = (Ok l, st') ->
  l = jdata /\
  exists tr d' new_tr data,
    d !! "training" = Some (VDict tr) /\
    heap st' !! jdata = Some d' /\
    d' !! "training" = Some (VDict new_tr) /\
    new_tr !! "training_data" = Some (VDict data) /\
    (forall k, data !! k = if decide (k ∈ tr_data_keys) then tr !! k else None) /\
    (forall k, k <> "training_data" ->
       new_tr !! k = if decide (k ∈ tr_data_keys) then None else tr !! k) /\
    (forall k, k <> "training" -> k <> "learning_rate" -> d' !! k = d !! k) /\
    (forall l', l' <> jdata -> heap st' !! l' = heap st !! l').
Proof.
  intros Hd Hrun.
  destruct (post_run _ _ _ _ _ (v1_v2_result st jdata d warning dump Hd) Hrun l eq_refl)
    as (-> & tr & d' & Htr & Hnone & Htr' & Hsame & ->).
  split; [reflexivity|].
  exists tr, d', (restructured tr), (filter (fun kv => kv.1 ∈ tr_data_keys) tr).
  split; [exact Htr|]. split; [apply lookup_insert_eq|]. split; [exact Htr'|].
  split; [apply lookup_insert_eq|]. split; [|split; [|split]].
  - intros k. destruct (decide (k ∈ tr_data_keys)) as [Hin|Hnin].
    + destruct (tr !! k) as [v|] eqn:Hk.
      * now apply map_lookup_filter_Some.
      * apply map_lookup_filter_None. now left.
    + apply map_lookup_filter_None. right. intros x _. exact Hnin.
  - intros k Hne. destruct (decide (k ∈ tr_data_keys)) as [Hin|Hnin].
    + now apply restructured_data_key.
    + now apply lookup_restructured.
  - intros k H1 H2. now apply Hsame.
  - intros l' Hl. cbn [heap]. now apply lookup_insert_ne.
Qed.

(** X16: when [convert_input_v1_v2] returns, what it has added to the log
    is the 1.x.x warning, if requested, naming the dump file, and then the
    dump, if requested, of the document as the call leaves it. *)
Theorem v1_v2_warns_then_dumps st jdata d warning dump l st' :
  heap st !! jdata = Some d ->
  convert_input_v1_v2 jdata warning dump st = (Ok l, st') ->
  exists d', heap st' !! l = Some d' /\
    log st' = (log st ++ closing_events "1.x.x" warning dump d')%list.
Proof.
  intros Hd Hrun.
  destruct (post_run _ _ _ _ _ (v1_v2_result st jdata d warning dump Hd) Hrun l eq_refl)
    as (-> & tr & d' & _ & _ & _ & _ & ->).
  exists d'. split; [apply lookup_insert_eq|reflexivity].
Qed.

(** X17: [convert_input_v1_v2] on a document without [training] fails with
    [KeyError] on [training]; on a [training] entry that is not a dict it
    fails with [AttributeError]; in both cases nothing has changed. *)
Theorem v1_v2_needs_training_section st jdata d warning dump :
  heap st !! jdata = Some d ->
  match d !! "training" with
  | None =>
      convert_input_v1_v2 jdata warning dump st = (Raise (KeyError "training"), st)
  | Some (VDict _) => True
  | Some _ =>
      convert_input_v1_v2 jdata warning dump st = (Raise AttributeError, st)
  end.
Proof.
  intros Hd. unfold convert_input_v1_v2.
  rewrite (bindM_load _ _ _ _ Hd). unfold dict_get.
  destruct (d !! "training") as [[]|]; try reflexivity; exact I.
Qed.

(** X18: [convert_input_v1_v2] on a v1 document without [learning_rate]
    fails with [KeyError] on [learning_rate], after it has rebuilt
    [training] in the caller's document; no warning, no file. *)
Theorem v1_v2_needs_learning_rate st jdata d tr warning dump :
  heap st !! jdata = Some d ->
  d !! "training" = Some (VDict tr) ->
  tr !! "training_data" = None ->
  d !! "learning_rate" = None ->
  convert_input_v1_v2 jdata warning dump st =
  (Raise (KeyError "learning_rate"),
   State (<[jdata := <["training" := VDict (restructured tr)]> d]> (heap st)) (log st)).
Proof.
  intros Hd Htr Hnone Hlr.
  rewrite (v1_v2_run _ _ d tr) by assumption.
  unfold bindM at 1, remove_decay_rate.
  rewrite (bindM_load _ _ _ (<["training" := VDict (restructured tr)]> d))
    by (cbn [heap]; apply lookup_insert_eq).
  rewrite (dict_get_None "learning_rate") by (now rewrite lookup_insert_ne).
  reflexivity.
Qed.

(** X19: an integer [decay_steps] of zero makes the decay-rate cleanup of
    [convert_input_v1_v2] fail with [ZeroDivisionError], when [decay_rate]
    is a float or an integer of 64 bits on which [numpy.log] signals no
    floating-point error (it is evaluated before the quotient) and
    [stop_batch] is a number; [training] is already rebuilt,
    [learning_rate] is as before, nothing is logged. *)
Theorem zero_decay_steps_is_an_error st jdata d tr lr vr vs vb vk rate log_rate
    warning dump :
  heap st !! jdata = Some d ->
  d !! "training" = Some (VDict tr) ->
  tr !! "training_data" = None ->
  d !! "learning_rate" = Some (VDict lr) ->
  lr !! "decay_rate" = Some vr ->
  np_operand vr = Ok rate -> np_log rate = Some log_rate ->
  lr !! "start_lr" = Some vs ->
  tr !! "stop_batch" = Some vb -> is_Some (as_number vb) ->
  lr !! "decay_steps" = Some vk -> as_number vk = Some (NInt 0) ->
  convert_input_v1_v2 jdata warning dump st =
  (Raise ZeroDivisionError,
   State (<[jdata := <["training" := VDict (restructured tr)]> d]> (heap st)) (log st)).
Proof.
  intros Hd Htr Hnone Hlr Hr Hxr Hlog Hs Hb [xb Hxb] Hk Hxk.
  rewrite (v1_v2_run _ _ d tr) by assumption.
  unfold bindM at 1.
  rewrite (remove_decay_rate_run _ _ (<["training" := VDict (restructured tr)]> d) lr)
    by (cbn [heap]; rewrite ?lookup_insert_eq, ?lookup_insert_ne by done; auto).
  rewrite Hr. unfold dict_get, getitem, dict_get.
  rewrite lookup_insert_eq, Hs, Hk. cbn [rbind].
  rewrite (lookup_restructured tr "stop_batch") by (auto using stop_batch_stays).
  rewrite Hb. cbn [rbind]. unfold stop_lr_of, truediv.
  rewrite Hxr. cbn [rbind]. rewrite Hlog. cbn [np_result rbind].
  rewrite Hxb, Hxk. now destruct xb.
Qed.

End Converters.

(** ** The pruner and the dispatcher *)

Section Dispatcher.

Context {F : Type} {FL : Float64 F} {FS : FileSystem}.

Implicit Types (doc d : gmap string (value (F:=F))) (st : state (F:=F)).
Implicit Types (jdata : loc) (warning : bool) (dump : option string).

(** X20: on a document whose [training] is absent or a dict the pruner
    returns the reference it was given; the document there differs from
    the one before only in [training], which has lost [numb_test] and
    nothing else (an absent [training] stays absent); the other objects
    are as before; it warns exactly when [numb_test] was there and
    warnings are requested, and the dump, if requested, receives the
    pruned document.  The one failure left is that of a dump file that
    cannot be written: [OSError], with the document pruned and the warning
    emitted all the same, and no file written. *)
Theorem pruner_removes_only_numb_test st jdata doc warning dump :
  heap st !! jdata = Some doc ->
  training_is_section doc ->
  exists doc' st',
    deprecate_numb_test jdata warning dump st = (written dump jdata, st') /\
    heap st' !! jdata = Some doc' /\
    (forall k, k <> "training" -> doc' !! k = doc !! k) /\
    match doc !! "training" with
    | Some (VDict tr) =>
        exists tr', doc' !! "training" = Some (VDict tr') /\
          tr' !! "numb_test" = None /\
          forall k, k <> "numb_test" -> tr' !! k = tr !! k
    | _ => doc' !! "training" = None
    end /\
    (forall l', l' <> jdata -> heap st' !! l' = heap st !! l') /\
    warnings_of (log st') =
      (warnings_of (log st) ++
       if has_numb_test doc && warning then [numb_test_message] else [])%list /\
    dumps_of (log st') =
      (dumps_of (log st) ++
       match dump with
       | Some fname => if writable fname then [(fname, doc')] else []
       | None => []
       end)%list.
Proof.
  intros Hdoc Hsec. exists (pruned doc). eexists.
  split; [exact (deprecate_numb_test_run st jdata doc warning dump Hdoc Hsec)|].
  cbn [heap log].
  split; [apply lookup_insert_eq|]. split; [|split; [|split; [|split]]].
  - intros k Hk. unfold pruned.
    destruct (doc !! "training") as [[]|]; try reflexivity. now apply lookup_insert_ne.
  - unfold pruned. destruct Hsec as [Hn|[tr Htr]].
    + now rewrite Hn.
    + rewrite Htr. eexists. split; [apply lookup_insert_eq|].
      split; [apply lookup_delete_eq|]. intros k Hk. now apply lookup_delete_ne.
  - intros l' Hl. now apply lookup_insert_ne.
  - rewrite !warnings_of_app, warnings_of_dump.
    destruct (has_numb_test doc && warning); cbn; now rewrite ?app_nil_r.
  - rewrite !dumps_of_app. unfold dump_events.
    destruct (has_numb_test doc && warning), dump as [fname|]; cbn;
      try destruct (writable fname); cbn; now rewrite ?app_nil_r.
Qed.

(** X21: on a [training] entry that is a list the pruner fails with
    [TypeError], on any other entry that is not a dict with
    [AttributeError]; nothing has changed, and no file is written even if
    a dump was requested. *)
Theorem pruner_needs_a_section st jdata doc v warning dump :
  heap st !! jdata = Some doc ->
  doc !! "training" = Some v ->
  match v with
  | VDict _ => True
  | VList _ => deprecate_numb_test jdata warning dump st = (Raise TypeError, st)
  | _ => deprecate_numb_test jdata warning dump st = (Raise AttributeError, st)
  end.
Proof.
  intros Hdoc Hv. unfold deprecate_numb_test, pop_numb_test, bindM, load.
  rewrite Hdoc, Hv. destruct v; try reflexivity; exact I.
Qed.

Lemma pruned_migrated d tr :
  is_Some (d !! "model") ->
  d !! "training" = Some (VDict tr) ->
  tr !! "systems" = None ->
  migrated (pruned d).
Proof.
  intros Hm Htr Hsys. unfold migrated, pruned. rewrite Htr. split.
  - now rewrite lookup_insert_ne.
  - eexists. split; [apply lookup_insert_eq|]. split.
    + now rewrite lookup_delete_ne.
    + apply lookup_delete_eq.
Qed.

Lemma migrated_is_pruned d : migrated d -> has_numb_test d = false /\ pruned d = d.
Proof.
  intros (_ & tr & Htr & _ & Hn).
  assert (H : has_numb_test d = false).
  { unfold has_numb_test. now rewrite Htr, has_key_lookup, Hn. }
  split; [exact H|now apply pruned_without_numb_test].
Qed.

(** The dispatcher on a migrated document: the pruner alone, which finds
    nothing to prune. *)
Lemma update_on_migrated st l d warning dump :
  heap st !! l = Some d ->
  migrated d ->
  update_deepmd_input l warning dump st =
  (written dump l, State (heap st) (log st ++ dump_events dump d)).
Proof.
  intros Hd Hmig. pose proof Hmig as ([m Hm] & tr & Htr & Hsys & Hn).
  destruct (migrated_is_pruned d Hmig) as [Hhas Hpr].
  unfold update_deepmd_input.
  rewrite (bindM_load _ _ _ _ Hd).
  unfold is_deepmd_v0_input, is_deepmd_v1_input, dict_get.
  rewrite has_key_lookup, Hm, Htr. cbn. rewrite has_key_lookup, Hsys.
  rewrite (deprecate_numb_test_run st l d) by (first [assumption | right; eauto]).
  rewrite Hhas, Hpr. cbn [andb app]. now rewrite insert_id.
Qed.

(** A returning [convert_input_v0_v1]: a new object with a [model] entry. *)
Lemma v0_v1_result st jdata warning dump :
  post (convert_input_v0_v1 jdata warning dump) st (fun r st' =>
    forall l, r = Ok l ->
      l = fresh (dom (heap st)) /\
      exists out, heap st' !! l = Some out /\ is_Some (out !! "model")).
Proof.
  unfold convert_input_v0_v1.
  repeat mstep; cbn beta; intros l Hl; try discriminate Hl; injection Hl as <-;
    (split; [reflexivity|]); cbn [heap]; rewrite lookup_insert_eq;
    eexists; (split; [reflexivity|]);
    rewrite !lookup_insert_ne by done; rewrite lookup_insert_eq; eauto.
Qed.

(** What a returning [update_deepmd_input] leaves at the reference it
    returns, and which reference that is. *)
Lemma update_result doc warning dump :
  post (update_deepmd_input caller warning dump) (init doc) (fun r st' =>
    forall l, r = Ok l ->
      (if is_deepmd_v0_input doc then l <> caller else l = caller) /\
      exists d', heap st' !! l = Some d' /\ migrated d').
Proof.
  unfold update_deepmd_input.
  mstep. mstep. cbn [init heap]. rewrite lookup_singleton_eq.
  destruct (is_deepmd_v0_input doc) eqn:Hv0.
  - mstep. eapply post_mono; [apply v0_v1_result|].
    intros r1 st1 H1. destruct r1 as [l1| |]; try (intros l Hl; discriminate Hl).
    destruct (H1 l1 eq_refl) as (Hl1 & out & Hout & Hmodel).
    assert (Hne : l1 <> caller) by (rewrite Hl1; apply fresh_not_caller).
    mstep. eapply post_mono; [apply (v1_v2_result st1 l1 out), Hout|].
    intros r2 st2 H2. destruct r2 as [l2| |]; try (intros l Hl; discriminate Hl).
    destruct (H2 l2 eq_refl) as (-> & tr & d' & _ & _ & Htr' & Hsame & ->).
    unfold post.
    rewrite (deprecate_numb_test_run _ l1 d')
      by (first [cbn [heap]; apply lookup_insert_eq | right; eauto]).
    cbn [fst snd heap]. intros l Hl. unfold written in Hl.
    destruct (can_write dump); [|discriminate Hl].
    injection Hl as <-. split; [exact Hne|].
    exists (pruned d'). split; [apply lookup_insert_eq|].
    apply (pruned_migrated d' (restructured tr)); [|exact Htr'|].
    + now rewrite Hsame.
    + apply restructured_data_key. apply (bool_decide_unpack _). vm_compute. exact I.
  - assert (Hmodel : is_Some (doc !! "model")).
    { unfold is_deepmd_v0_input in Hv0. rewrite has_key_lookup in Hv0.
      destruct (doc !! "model"); [eauto|discriminate Hv0]. }
    mstep. mstep.
    destruct (is_deepmd_v1_input doc) as [[|]| |] eqn:Hv1;
      try (intros l Hl; discriminate Hl).
    + mstep.
      eapply post_mono; [apply (v1_v2_result (init doc) caller doc), lookup_singleton_eq|].
      intros r2 st2 H2. destruct r2 as [l2| |]; try (intros l Hl; discriminate Hl).
      destruct (H2 l2 eq_refl) as (-> & tr & d' & _ & _ & Htr' & Hsame & ->).
      unfold post.
      rewrite (deprecate_numb_test_run _ caller d')
        by (first [cbn [heap]; apply lookup_insert_eq | right; eauto]).
      cbn [fst snd heap]. intros l Hl. unfold written in Hl.
      destruct (can_write dump); [|discriminate Hl].
      injection Hl as <-. split; [reflexivity|].
      exists (pruned d'). split; [apply lookup_insert_eq|].
      apply (pruned_migrated d' (restructured tr)); [|exact Htr'|].
      * now rewrite Hsame.
      * apply restructured_data_key. apply (bool_decide_unpack _). vm_compute. exact I.
    + unfold is_deepmd_v1_input, dict_get in Hv1.
      destruct (doc !! "training") as [[| | | | | |tr]|] eqn:Htr; try discriminate Hv1.
      cbn in Hv1. rewrite has_key_lookup in Hv1.
      destruct (tr !! "systems") eqn:Hsys; [discriminate Hv1|].
      unfold post.
      rewrite (deprecate_numb_test_run _ caller doc)
        by (first [apply lookup_singleton_eq | right; eauto]).
      cbn [fst snd heap]. intros l Hl. unfold written in Hl.
      destruct (can_write dump); [|discriminate Hl].
      injection Hl as <-. split; [reflexivity|].
      exists (pruned doc). split; [apply lookup_insert_eq|].
      now apply (pruned_migrated doc tr).
Qed.

(** X22: a returning [update_deepmd_input] returns a new object for a
    v0-detected input, and the caller's own object otherwise. *)
Theorem update_returned_reference doc warning dump l st' :
  update_deepmd_input caller warning dump (init doc) = (Ok l, st') ->
  if is_deepmd_v0_input doc then l <> caller else l = caller.
Proof.
  intros Hrun.
  exact (proj1 (post_run _ _ _ _ _ (update_result doc warning dump) Hrun l eq_refl)).
Qed.

(** X23: the document that a returning [update_deepmd_input] returns has
    a [model] entry and a [training] section with neither [systems] nor
    [numb_test] at its top: the dispatcher takes it for a v2 document. *)
Theorem update_result_is_v2 doc warning dump l st' :
  update_deepmd_input caller warning dump (init doc) = (Ok l, st') ->
  exists d', heap st' !! l = Some d' /\ migrated d'.
Proof.
  intros Hrun.
  exact (proj2 (post_run _ _ _ _ _ (update_result doc warning dump) Hrun l eq_refl)).
Qed.

(** X24: [update_deepmd_input] applied to the document it has returned
    returns it again and changes nothing, in no object, and emits no
    warning, whatever the flags of the second call; the one failure left
    to the second call is that of a dump file that cannot be written. *)
Theorem update_is_idempotent doc warning dump warning' dump' l st1 :
  update_deepmd_input caller warning dump (init doc) = (Ok l, st1) ->
  exists st2,
    update_deepmd_input l warning' dump' st1 = (written dump' l, st2) /\
    heap st2 = heap st1 /\
    warnings_of (log st2) = warnings_of (log st1).
Proof.
  intros Hrun.
  destruct (post_run _ _ _ _ _ (update_result doc warning dump) Hrun l eq_refl)
    as (_ & d' & Hd' & Hmig).
  eexists. split; [now apply (update_on_migrated st1 l d')|].
  cbn [heap log]. split; [reflexivity|].
  rewrite warnings_of_app, warnings_of_dump. now rewrite app_nil_r.
Qed.

Ltac solve_dumps :=
  cbn beta; cbn [heap log]; rewrite ?dumps_of_app; cbn [dumps_of omap app];
  repeat match goal with
    | H : _ !! _ = Some _ |- _ => rewrite H
    end;
  rewrite ?app_nil_r; reflexivity.

Lemma v0_v1_no_dump st jdata warning :
  post (convert_input_v0_v1 jdata warning None) st (fun _ st' =>
    dumps_of (log st') = dumps_of (log st)).
Proof. unfold convert_input_v0_v1. repeat mstep; solve_dumps. Qed.

Lemma v1_v2_no_dump st jdata warning :
  post (convert_input_v1_v2 jdata warning None) st (fun _ st' =>
    dumps_of (log st') = dumps_of (log st)).
Proof.
  unfold convert_input_v1_v2. repeat mstep; try solve_dumps.
  eapply post_mono; [apply remove_decay_rate_effects|].
  cbn [heap log]. intros r2 st2 (Hlog & _).
  destruct r2 as [[]| |]; try (cbn beta; now rewrite Hlog).
  destruct warning; repeat mstep; cbn beta; cbn [log]; rewrite ?dumps_of_app, Hlog;
    cbn; now rewrite ?app_nil_r.
Qed.

Lemma pruner_dumps st jdata warning dump :
  post (deprecate_numb_test jdata warning dump) st (fun r st' =>
    dumps_of (log st') =
    (dumps_of (log st) ++
     match r, dump with
     | Ok l, Some fname =>
         match heap st' !! l with
         | Some d => [(fname, d)]
         | None => []
         end
     | _, _ => []
     end)%list).
Proof.
  unfold deprecate_numb_test, pop_numb_test. repeat mstep; solve_dumps.
Qed.

(** X25: [update_deepmd_input] writes the dump file at most once: when it
    returns and a dump was requested, once, at the end, and the file
    receives the document it returns; when it fails or no dump was
    requested, never. *)
Theorem update_dumps_once doc warning dump r st' :
  update_deepmd_input caller warning dump (init doc) = (r, st') ->
  match r with
  | Ok l =>
      exists d', heap st' !! l = Some d' /\
        dumps_of (log st') =
        match dump with Some fname => [(fname, d')] | None => [] end
  | _ => dumps_of (log st') = []
  end.
Proof.
  intros Hrun.
  assert (Hd : dumps_of (log st') =
    match r, dump with
    | Ok l, Some fname =>
        match heap st' !! l with
        | Some d => [(fname, d)]
        | None => []
        end
    | _, _ => []
    end).
  { apply (post_run (update_deepmd_input caller warning dump) (init doc)
             (fun r st' => dumps_of (log st') =
                match r, dump with
                | Ok l, Some fname =>
                    match heap st' !! l with
                    | Some d => [(fname, d)]
                    | None => []
                    end
                | _, _ => []
                end) r st'); [|exact Hrun].
    unfold update_deepmd_input.
    mstep. mstep. cbn [init heap]. rewrite lookup_singleton_eq.
    destruct (is_deepmd_v0_input doc).
    - mstep. eapply post_mono; [apply v0_v1_no_dump|].
      intros r1 st1 H1. cbn [init log dumps_of omap] in H1.
      destruct r1 as [l1| |]; try exact H1.
      mstep. eapply post_mono; [apply v1_v2_no_dump|].
      intros r2 st2 H2. rewrite H1 in H2.
      destruct r2 as [l2| |]; try exact H2.
      eapply post_mono; [apply pruner_dumps|].
      intros r3 st3 H3. now rewrite H2 in H3.
    - mstep. mstep.
      destruct (is_deepmd_v1_input doc) as [[|]| |]; try reflexivity.
      + mstep. eapply post_mono; [apply v1_v2_no_dump|].
        intros r2 st2 H2. cbn [init log dumps_of omap] in H2.
        destruct r2 as [l2| |]; try exact H2.
        eapply post_mono; [apply pruner_dumps|].
        intros r3 st3 H3. now rewrite H2 in H3.
      + eapply post_mono; [apply pruner_dumps|].
        intros r3 st3 H3. exact H3. }
  destruct r as [l| |]; try (rewrite Hd; now destruct dump).
  destruct (post_run _ _ _ _ _ (update_result doc warning dump) Hrun l eq_refl)
    as (_ & d' & Hd' & _).
  exists d'. split; [exact Hd'|]. rewrite Hd, Hd'. reflexivity.
Qed.

(** X26: a document with a [model] entry whose [training] entry is not a
    dict makes the v1 detector of [update_deepmd_input] fail with
    [AttributeError]; no stage has run. *)
Theorem detection_needs_a_section doc v warning dump :
  is_Some (doc !! "model") ->
  doc !! "training" = Some v ->
  items v = Raise AttributeError ->
  update_deepmd_input caller warning dump (init doc) =
  (Raise AttributeError, init doc).
Proof.
  intros [m Hm] Hv Hitems.
  unfold update_deepmd_input, is_deepmd_v0_input, is_deepmd_v1_input, dict_get, keys.
  rewrite (bindM_load _ _ _ doc) by apply lookup_singleton_eq.
  rewrite has_key_lookup, Hm, Hv. cbn [negb rbind]. now rewrite Hitems.
Qed.

(** What a returning [update_deepmd_input] keeps of a document that has
    a [model] entry. *)
Lemma update_keeps doc warning dump :
  is_deepmd_v0_input doc = false ->
  post (update_deepmd_input caller warning dump) (init doc) (fun r st' =>
    forall l, r = Ok l ->
      exists d', heap st' !! caller = Some d' /\
        forall k, k <> "training" -> k <> "learning_rate" -> d' !! k = doc !! k).
Proof.
  intros Hv0. unfold update_deepmd_input.
  mstep. mstep. cbn [init heap]. rewrite lookup_singleton_eq, Hv0.
  mstep. mstep.
  destruct (is_deepmd_v1_input doc) as [[|]| |] eqn:Hv1;
    try (intros l Hl; discriminate Hl).
  - mstep.
    eapply post_mono; [apply (v1_v2_result (init doc) caller doc), lookup_singleton_eq|].
    intros r2 st2 H2. destruct r2 as [l2| |]; try (intros l Hl; discriminate Hl).
    destruct (H2 l2 eq_refl) as (-> & tr & d' & _ & _ & Htr' & Hsame & ->).
    unfold post.
    rewrite (deprecate_numb_test_run _ caller d')
      by (first [cbn [heap]; apply lookup_insert_eq | right; eauto]).
    cbn [fst snd heap]. intros l _.
    exists (pruned d'). split; [apply lookup_insert_eq|].
    intros k H1 H2'. unfold pruned. rewrite Htr', lookup_insert_ne by done.
    now apply Hsame.
  - unfold is_deepmd_v1_input, dict_get in Hv1.
    destruct (doc !! "training") as [[| | | | | |tr]|] eqn:Htr; try discriminate Hv1.
    unfold post.
    rewrite (deprecate_numb_test_run _ caller doc)
      by (first [apply lookup_singleton_eq | right; eauto]).
    cbn [fst snd heap]. intros l _.
    exists (pruned doc). split; [apply lookup_insert_eq|].
    intros k H1 H2'. unfold pruned. rewrite Htr. now apply lookup_insert_ne.
Qed.

(** X27: on a document with a [model] entry, a returning
    [update_deepmd_input] leaves in the caller's document every top-level
    entry other than [training] and [learning_rate] as it was: no field it
    does not handle is dropped or changed. *)
Theorem update_keeps_other_entries doc warning dump l st' :
  is_deepmd_v0_input doc = false ->
  update_deepmd_input caller warning dump (init doc) = (Ok l, st') ->
  exists d', heap st' !! caller = Some d' /\
    forall k, k <> "training" -> k <> "learning_rate" -> d' !! k = doc !! k.
Proof.
  intros Hv0 Hrun.
  exact (post_run _ _ _ _ _ (update_keeps doc warning dump Hv0) Hrun l eq_refl).
Qed.

End Dispatcher.

(** ** The further properties on the example documents *)

Lemma ok_inv {A : Type} (r : result A) : is_ok r = true -> exists a, r = Ok a.
Proof. destruct r; [eauto|discriminate..]. Qed.

Lemma run_eq {A : Type} (m : M (F:=fterm) A) (st : state (F:=fterm)) (r : result A) :
  (m st).1 = r -> m st = (r, (m st).2).
Proof. intros <-. apply surjective_pairing. Qed.

Lemma run_ok_inv {A : Type} (m : M (F:=fterm) A) (st : state (F:=fterm)) :
  is_ok (m st).1 = true -> exists a, m st = (Ok a, (m st).2).
Proof.
  intros [a Ha]%ok_inv. exists a. now apply run_eq.
Qed.

Lemma smth_descriptor_fields_witness :
  exists d, _smth_descriptor example_v0 = Ok d /\ d !! "sel" = example_v0 !! "sel_a".
Proof.
  destruct (ok_inv (_smth_descriptor example_v0)) as [d Hd];
    [vm_compute; reflexivity|].
  exists d. split; [exact Hd|].
  exact (proj1 (proj2 (smth_descriptor_fields example_v0 d Hd))).
Defined.

Lemma training_fields_witness :
  exists t, _training example_v0 = Ok t /\
    t !! "disp_file" = Some (default (VStr "lcurve.out") (example_v0 !! "disp_file")).
Proof.
  destruct (ok_inv (_training example_v0)) as [t Ht]; [vm_compute; reflexivity|].
  exists t. split; [exact Ht|].
  exact (proj1 (training_fields example_v0 t Ht)).
Defined.

Lemma training_required_keys_witness :
  _training only_disp_freq = Raise (KeyError "numb_test").
Proof.
  apply (training_required_keys only_disp_freq 1 "numb_test").
  - reflexivity.
  - intros k' Hk'. cbn in Hk'. apply list_elem_of_singleton in Hk' as ->.
    exists (VInt 100). reflexivity.
  - reflexivity.
Defined.

Lemma profiling_file_required_witness :
  _training profiling_on = Raise (KeyError "profiling_file").
Proof.
  apply (profiling_file_required profiling_on (VBool true)).
  - intros k Hk. unfold training_required in Hk.
    repeat (apply elem_of_cons in Hk as [->|Hk]); try (eexists; reflexivity).
    now apply elem_of_nil in Hk.
  - reflexivity.
  - reflexivity.
Defined.

Lemma v0_v1_builds_new_document_witness :
  exists st',
    convert_input_v0_v1 caller true (Some "out.json") (init example_v0) =
    (Ok (fresh (dom (heap (init example_v0)))), st').
Proof.
  destruct (ok_inv (_model example_v0 (VBool true))) as [model Hm];
    [vm_compute; reflexivity|].
  destruct (ok_inv (_loss example_v0)) as [loss Hl]; [vm_compute; reflexivity|].
  destruct (ok_inv (_training example_v0)) as [training Ht]; [vm_compute; reflexivity|].
  pose proof (v0_v1_builds_new_document (init example_v0) caller example_v0
                (VBool true) model loss training true (Some "out.json")
                eq_refl eq_refl Hm Hl Ht) as H.
  cbv zeta in H. destruct H as [_ H]. eexists. exact H.
Defined.

Lemma v0_v1_needs_use_smooth_witness :
  exists st',
    convert_input_v0_v1 caller true (Some "out.json") (init model_only) =
    (Raise (KeyError "use_smooth"), st') /\ log st' = [].
Proof.
  destruct (v0_v1_needs_use_smooth (init model_only) caller model_only true
              (Some "out.json") eq_refl eq_refl) as (st' & Hrun & Hlog & _).
  exists st'. split; [exact Hrun|exact Hlog].
Defined.

(** The v0 example with a dump file that cannot be written: the call
    raises after the warning, and the caller's document is as it was. *)
Lemma v0_v1_failure_keeps_the_store_witness :
  (convert_input_v0_v1 caller true (Some "") (init example_v0)).1 = Raise OSError /\
  heap (convert_input_v0_v1 caller true (Some "") (init example_v0)).2 !! caller =
  Some example_v0.
Proof.
  assert (Hr : (convert_input_v0_v1 caller true (Some "") (init example_v0)).1 =
               Raise OSError) by (vm_compute; reflexivity).
  split; [exact Hr|].
  apply (v0_v1_failure_keeps_the_store (init example_v0) caller true (Some "")
           (convert_input_v0_v1 caller true (Some "") (init example_v0)).1
           (convert_input_v0_v1 caller true (Some "") (init example_v0)).2).
  - apply surjective_pairing.
  - now rewrite Hr.
  - exists example_v0. reflexivity.
Defined.

Lemma v1_v2_partitions_training_witness :
  exists d',
    heap (convert_input_v1_v2 caller true None (init example_v1)).2 !! caller = Some d' /\
    forall k, k <> "training" -> k <> "learning_rate" -> d' !! k = example_v1 !! k.
Proof.
  destruct (v1_v2_partitions_training (init example_v1) caller example_v1 true None
              caller (convert_input_v1_v2 caller true None (init example_v1)).2)
    as (_ & tr & d' & new_tr & data & _ & Hd' & _ & _ & _ & _ & Hsame & _).
  - reflexivity.
  - apply run_eq. vm_compute. reflexivity.
  - exists d'. split; [exact Hd'|exact Hsame].
Defined.

Lemma v1_v2_warns_then_dumps_witness :
  exists d',
    heap (convert_input_v1_v2 caller true (Some "out.json") (init example_v1)).2
      !! caller = Some d' /\
    log (convert_input_v1_v2 caller true (Some "out.json") (init example_v1)).2 =
    [Warning (warning_message "1.x.x" (Some "out.json")); FileDump "out.json" d'].
Proof.
  destruct (v1_v2_warns_then_dumps (init example_v1) caller example_v1 true
              (Some "out.json") caller
              (convert_input_v1_v2 caller true (Some "out.json") (init example_v1)).2)
    as (d' & Hd' & Hlog).
  - reflexivity.
  - apply run_eq. vm_compute. reflexivity.
  - exists d'. split; [exact Hd'|]. rewrite Hlog. reflexivity.
Defined.

Lemma v1_v2_needs_training_section_witness :
  convert_input_v1_v2 caller true None (init model_only) =
  (Raise (KeyError "training"), init model_only).
Proof.
  exact (v1_v2_needs_training_section (init model_only) caller model_only true None
           eq_refl).
Defined.

Lemma v1_v2_needs_learning_rate_witness :
  convert_input_v1_v2 caller true None (init no_learning_rate) =
  (Raise (KeyError "learning_rate"),
   State (<[caller := <["training" := VDict (restructured decay_training)]>
                        no_learning_rate]> (heap (init no_learning_rate))) []).
Proof.
  apply (v1_v2_needs_learning_rate (init no_learning_rate) caller no_learning_rate
           decay_training true None); reflexivity.
Defined.

Lemma zero_decay_steps_witness :
  convert_input_v1_v2 caller true None (init v1_with_zero_steps) =
  (Raise ZeroDivisionError,
   State (<[caller := <["training" := VDict (restructured decay_training)]>
                        v1_with_zero_steps]> (heap (init v1_with_zero_steps))) []).
Proof.
  apply (zero_decay_steps_is_an_error (init v1_with_zero_steps) caller
           v1_with_zero_steps decay_training zero_steps
           (VFloat (Dec 5 (-1))) (VFloat (Dec 1 (-2))) (VInt 10000) (VInt 0)
           (Dec 5 (-1)) (Log (Dec 5 (-1))) true None);
    try reflexivity; try (vm_compute; reflexivity); eexists; reflexivity.
Defined.

Lemma pruner_removes_only_numb_test_witness :
  exists doc' st',
    deprecate_numb_test caller true (Some "out.json") (init example_v2) =
    (Ok caller, st') /\
    heap st' !! caller = Some doc' /\
    forall k, k <> "training" -> doc' !! k = example_v2 !! k.
Proof.
  destruct (pruner_removes_only_numb_test (init example_v2) caller example_v2 true
              (Some "out.json")) as (doc' & st' & Hrun & Hdoc' & Hsame & _).
  - reflexivity.
  - right. eexists. reflexivity.
  - exists doc', st'. split; [exact Hrun|]. split; [exact Hdoc'|exact Hsame].
Defined.

Lemma pruner_needs_a_section_witness :
  deprecate_numb_test caller true (Some "out.json") (init scalar_training) =
  (Raise AttributeError, init scalar_training).
Proof.
  exact (pruner_needs_a_section (init scalar_training) caller scalar_training (VInt 5)
           true (Some "out.json") eq_refl eq_refl).
Defined.

Lemma update_returned_reference_witness :
  exists l, update_deepmd_input caller true None (init example_v0) =
            (Ok l, (update_deepmd_input caller true None (init example_v0)).2) /\
    l <> caller.
Proof.
  destruct (run_ok_inv (update_deepmd_input caller true None) (init example_v0))
    as [l Hrun]; [vm_compute; reflexivity|].
  exists l. split; [exact Hrun|].
  exact (update_returned_reference example_v0 true None l _ Hrun).
Defined.

Lemma update_result_is_v2_witness :
  exists l d',
    heap (update_deepmd_input caller true None (init example_v1)).2 !! l = Some d' /\
    migrated d'.
Proof.
  destruct (run_ok_inv (update_deepmd_input caller true None) (init example_v1))
    as [l Hrun]; [vm_compute; reflexivity|].
  exists l. exact (update_result_is_v2 example_v1 true None l _ Hrun).
Defined.

Lemma update_is_idempotent_witness :
  exists l st2,
    update_deepmd_input l true None
      (update_deepmd_input caller true None (init example_v0)).2 = (Ok l, st2) /\
    heap st2 = heap (update_deepmd_input caller true None (init example_v0)).2.
Proof.
  destruct (run_ok_inv (update_deepmd_input caller true None) (init example_v0))
    as [l Hrun]; [vm_compute; reflexivity|].
  destruct (update_is_idempotent example_v0 true None true None l _ Hrun)
    as (st2 & Hrun2 & Hheap & _).
  exists l, st2. split; [exact Hrun2|exact Hheap].
Defined.

Lemma update_dumps_once_witness :
  exists l d',
    heap (update_deepmd_input caller true (Some "out.json") (init example_v1)).2 !! l
      = Some d' /\
    dumps_of (log (update_deepmd_input caller true (Some "out.json")
                     (init example_v1)).2) = [("out.json", d')].
Proof.
  destruct (run_ok_inv (update_deepmd_input caller true (Some "out.json"))
              (init example_v1)) as [l Hrun]; [vm_compute; reflexivity|].
  exists l.
  exact (update_dumps_once example_v1 true (Some "out.json") (Ok l) _ Hrun).
Defined.

Lemma model_descriptor_witness :
  exists model descriptor,
    _model example_v0 (VBool true) = Ok model /\
    model !! "descriptor" = Some (VDict descriptor) /\
    _smth_descriptor example_v0 = Ok descriptor.
Proof.
  destruct (ok_inv (_model example_v0 (VBool true))) as [model Hm];
    [vm_compute; reflexivity|].
  destruct (model_descriptor_follows_use_smooth example_v0 (VBool true) model Hm)
    as (descriptor & fitting_net & -> & _ & Hd & _).
  eexists. exists descriptor. split; [exact Hm|]. split; [|exact Hd].
  rewrite lookup_insert_ne by done. apply lookup_insert_eq.
Defined.

Lemma detection_needs_a_section_witness :
  update_deepmd_input caller true None (init model_and_scalar_training) =
  (Raise AttributeError, init model_and_scalar_training).
Proof.
  apply (detection_needs_a_section model_and_scalar_training (VInt 5) true None).
  - exists (VDict ∅). reflexivity.
  - reflexivity.
  - reflexivity.
Defined.

Lemma update_keeps_other_entries_witness :
  exists d',
    heap (update_deepmd_input caller true None (init example_v1)).2 !! caller = Some d' /\
    forall k, k <> "training" -> k <> "learning_rate" -> d' !! k = example_v1 !! k.
Proof.
  apply (update_keeps_other_entries example_v1 true None caller).
  - reflexivity.
  - apply run_eq. vm_compute. reflexivity.
Defined.
